(** * Disaster Prediction API: risk prediction and evacuation planning

    A shallow embedding of [BACKEND.py], the FastAPI service of the
    repository: the request and reference data, the [/predict] endpoint
    with its two prediction services, and the [/evacuation] endpoint;
    then the properties of the two endpoints.

    Conventions of the embedding.
    - A Python [float] is an IEEE 754 binary64 number: Rocq's primitive
      [float], with its comparisons [<?] and [=?], both false on NaN.
    - A Python [int] is a [Z]; the capacity of a shelter is one.
    - What the code reads from outside itself is threaded through a
      [World]: the number of [datetime.now()] readings taken, the number
      of samples drawn from NumPy's global generator, and the trace of
      the calls into the predictive models and the region index.  The
      readings and the samples themselves are given by the [Platform].
    - Exceptions are the [Raise] outcome of the monad [M]; the world of
      a raised outcome is the world at the point of the [raise].
    - The loaded artifacts (the Keras and scikit-learn models, the
      reference datasets) are the fields of [DisasterModels], as in the
      class of that name.  A model is a function from its input batch to
      its output batch that may fail; the conversion [float(p)] of its
      scalars is the identity.
    - The functions of [geopy], [shapely] and [datetime] that the code
      calls are fields of [Platform].  [great_circle] and [contains] are
      total: the coordinates are those of a valid location.
    - [datetime] arithmetic keeps the range of the standard library:
      a [timedelta] has at most 999999999 days and a date is no later
      than 9999-12-31, with [OverflowError] beyond. *)

From Stdlib Require Import ZArith String List Bool Lia Permutation Sorted.
From Stdlib Require Import Floats.
From Stdlib Require Uint63 DecimalString DecimalZ.
Import ListNotations.

Set Implicit Arguments.

(** ** Outcomes, the world and the monad *)

Inductive exn : Type :=
| HTTPException (status_code : Z) (detail : string)
| OverflowError
| IndexError
| InferenceError.

Inductive outcome (A : Type) : Type :=
| Return (a : A)
| Raise (e : exn).

Arguments Return {A} a.
Arguments Raise {A} e.

(** A call that leaves the service for a model or for the region index. *)
Inductive Call : Type :=
| EarthquakePredict (features : list (list (list float)))
| RegionLookup (x y : float)
| FloodPredictProba (features : list (list float)).

Record World : Type := mkWorld {
  clock_reads : nat;
  rng_draws : nat;
  trace : list Call
}.

Definition M (A : Type) : Type := World -> outcome A * World.

Definition ret {A} (a : A) : M A := fun w => (Return a, w).

Definition raise {A} (e : exn) : M A := fun w => (Raise e, w).

Definition bind {A B} (c : M A) (k : A -> M B) : M B :=
  fun w =>
    match c w with
    | (Return a, w') => k a w'
    | (Raise e, w') => (Raise e, w')
    end.

Notation "x <- c ;; k" := (bind c (fun x => k))
  (at level 61, c at next level, right associativity).

(** A list comprehension or [for] loop whose body has effects: the
    elements are visited in order and the first exception ends the loop. *)
Fixpoint mapM {A B} (f : A -> M B) (l : list A) : M (list B) :=
  match l with
  | [] => ret []
  | a :: l' => b <- f a ;; bs <- mapM f l' ;; ret (b :: bs)
  end.

(** ** Python built-ins used by the service *)

(** [range(n)]: [0, 1, ..., n-1], empty when [n <= 0]. *)
Fixpoint range_from (i : Z) (len : nat) : list Z :=
  match len with
  | O => []
  | S len' => i :: range_from (i + 1) len'
  end.

Definition range (n : Z) : list Z := range_from 0 (Z.to_nat n).

(** [zip(xs, ys)]: pairs up to the shorter of the two. *)
Fixpoint zip {A B} (xs : list A) (ys : list B) : list (A * B) :=
  match xs, ys with
  | x :: xs', y :: ys' => (x, y) :: zip xs' ys'
  | _, _ => []
  end.

(** [d[k] = v] on an insertion-ordered dictionary: a key already present
    keeps its place and takes the new value. *)
Fixpoint dict_set {V} (d : list (string * V)) (k : string) (v : V)
  : list (string * V) :=
  match d with
  | [] => [(k, v)]
  | (k', v') :: d' =>
      if String.eqb k' k then (k', v) :: d' else (k', v') :: dict_set d' k v
  end.

(** [dict(pairs)]. *)
Definition dict {V} (pairs : list (string * V)) : list (string * V) :=
  fold_left (fun d kv => dict_set d (fst kv) (snd kv)) pairs [].

(** [l[i:j]] for [0 <= i <= j]. *)
Definition slice {A} (i j : nat) (l : list A) : list A :=
  firstn (j - i) (skipn i l).

(** [sorted(l, key=key)]: the keys are compared with [<] only, and
    elements whose keys do not order stay in input order.  Each element
    in turn is put after every element already placed that it is not
    smaller than (CPython's binary insertion finds the same place by
    bisection whenever [<] orders the keys consistently). *)
Section Sorted.
Variables (A K : Type) (key : A -> K) (lt : K -> K -> bool).

Fixpoint insort (x : A) (l : list A) : list A :=
  match l with
  | [] => [x]
  | y :: l' => if lt (key x) (key y) then x :: l else y :: insort x l'
  end.

Definition sorted (l : list A) : list A :=
  fold_left (fun acc x => insort x acc) l [].

End Sorted.

(** ** [datetime] *)

(** A naive [datetime]: the proleptic Gregorian ordinal of its day
    (1 is 0001-01-01) and the microsecond within the day. *)
Record datetime : Type := mkDatetime {
  toordinal : Z;
  microsecond_of_day : Z
}.

Record timedelta : Type := mkTimedelta { days : Z }.

(** [date.max.toordinal()], the ordinal of 9999-12-31. *)
Definition MAXORDINAL : Z := 3652059.

(** [timedelta(days=d)]: at most 999999999 days either way. *)
Definition timedelta_days (d : Z) : M timedelta :=
  if (Z.abs d <=? 999999999)%Z then ret (mkTimedelta d) else raise OverflowError.

(** [dt + td]: the same time of day [days td] days later, or
    [OverflowError] outside years 1 to 9999. *)
Definition datetime_add (dt : datetime) (td : timedelta) : M datetime :=
  let o := (toordinal dt + days td)%Z in
  if ((1 <=? o) && (o <=? MAXORDINAL))%Z
  then ret (mkDatetime o (microsecond_of_day dt))
  else raise OverflowError.

(** ** Data model *)

Record Location : Type := mkLocation { lat : float; lon : float }.

Module PredictionRequest.
Record t : Type := mk {
  location : Location;
  disaster_type : string;
  time_window : Z
}.
End PredictionRequest.

Module EvacuationRequest.
Record t : Type := mk {
  start_point : Location;
  disaster_type : string;
  disaster_radius : float
}.
End EvacuationRequest.

(** A [shapely] point: [x] is the longitude, [y] the latitude. *)
Record Point : Type := mkPoint { x : float; y : float }.

(** A row of [data/regions.geojson]. *)
Record Region : Type := mkRegion {
  polygon : list Point;
  elevation : float;
  river_dist : float;
  soil_moisture : float
}.

(** A row of [data/shelters.geojson]. *)
Record Shelter : Type := mkShelter {
  id : string;
  geometry : Point;
  capacity : Z
}.

(** The shelter entries of the evacuation response. *)
Module Candidate.
Record t : Type := mk {
  id : string;
  location : Location;
  distance_km : float;
  capacity : Z
}.
End Candidate.

Module EvacuationPlan.
Record t : Type := mk {
  recommended_shelter : Candidate.t;
  alternative_shelters : list Candidate.t;
  disaster_type : string
}.
End EvacuationPlan.

(** The two shapes of the [/predict] response. *)
Inductive RiskResult : Type :=
| RiskSeries (disaster : string) (risks : list (string * float)) (unit : string)
| RiskScalar (disaster : string) (risk : float) (unit : string).

(** [class DisasterModels]: the model artifacts and the reference
    datasets, loaded once.  A model maps its input batch to its output
    batch, or fails. *)
Record DisasterModels : Type := mkModels {
  earthquake_model : list (list (list float)) -> option (list (list float));
  flood_model : list (list float) -> option (list (list float));
  wildfire_model : list (list float) -> option (list (list float));
  hurricane_model : list (list (list float)) -> option (list (list float));
  regions : list Region;
  evacuation_routes : list (list Point);
  shelters : list Shelter
}.

(** What the service takes from its platform: the clock, NumPy's global
    generator, and the library functions it calls. *)
Record Platform : Type := mkPlatform {
  (** the [k]-th reading of [datetime.now()] *)
  now : nat -> datetime;
  (** the [k]-th sample of [random_sample()], in [0, 1) *)
  random_sample : nat -> float;
  (** [datetime.isoformat] *)
  isoformat : datetime -> string;
  (** [datetime.timetuple().tm_yday] *)
  tm_yday : datetime -> Z;
  (** [geopy.distance.great_circle(p, q).km], points as (lat, lon) *)
  great_circle : float * float -> float * float -> float;
  (** [shapely]'s [polygon.contains(point)] *)
  contains : list Point -> Point -> bool
}.

Section Backend.
Variable platform : Platform.
Variable models : DisasterModels.

(** [datetime.now()] *)
Definition datetime_now : M datetime :=
  fun w =>
    (Return (now platform (clock_reads w)),
     mkWorld (S (clock_reads w)) (rng_draws w) (trace w)).

(** [np.random.uniform(low, high)] *)
Definition uniform (low high : float) : M float :=
  fun w =>
    (Return (low + (high - low) * random_sample platform (rng_draws w))%float,
     mkWorld (clock_reads w) (S (rng_draws w)) (trace w)).

(** A call into a model or the region index, recorded in the trace. *)
Definition call {A} (c : Call) (r : option A) : M A :=
  fun w =>
    let w' := mkWorld (clock_reads w) (rng_draws w) (trace w ++ [c]) in
    match r with
    | Some a => (Return a, w')
    | None => (Raise InferenceError, w')
    end.

(** [a[i]] *)
Definition index {A} (a : list A) (i : nat) : M A :=
  match nth_error a i with
  | Some v => ret v
  | None => raise IndexError
  end.

(** The conversion of the day of the year, between 1 and 366, to a NumPy
    [float64]. *)
Definition float_of_int (z : Z) : float := PrimFloat.of_uint63 (Uint63.of_Z z).

(** *** [class PredictionService] *)

Definition prepare_earthquake_features (location : Location) (dates : list datetime)
  : M (list (list (list float))) :=
  features <- mapM (fun date =>
      let day_of_year := tm_yday platform date in
      seismic <- uniform 0 10 ;;
      depth <- uniform 0 100 ;;
      ret [lat location; lon location; float_of_int day_of_year; seismic; depth])
    dates ;;
  ret [features].

Definition predict_earthquake (location : Location) (dates : list datetime)
  : M (list float) :=
  features <- prepare_earthquake_features location dates ;;
  batches <- call (EarthquakePredict features) (earthquake_model models features) ;;
  predictions <- index batches 0 ;;
  ret predictions.

Definition predict_flood (location : Location) : M float :=
  let point := mkPoint (lon location) (lat location) in
  region <- call (RegionLookup (x point) (y point))
              (Some (filter (fun r => contains platform (polygon r) point) (regions models))) ;;
  match region with
  | [] => ret 0%float
  | r0 :: _ =>
      let features := [[elevation r0; river_dist r0; soil_moisture r0]] in
      proba <- call (FloodPredictProba features) (flood_model models features) ;;
      row <- index proba 0 ;;
      index row 1
  end.

(** *** [POST /predict] *)

Definition predict_disaster (request : PredictionRequest.t) : M RiskResult :=
  dates <- mapM (fun i =>
      n <- datetime_now ;;
      td <- timedelta_days i ;;
      datetime_add n td)
    (range (PredictionRequest.time_window request)) ;;
  if String.eqb (PredictionRequest.disaster_type request) "earthquake" then
    risks <- predict_earthquake (PredictionRequest.location request) dates ;;
    ret (RiskSeries "earthquake"
           (dict (zip (map (isoformat platform) dates) risks))
           "probability")
  else if String.eqb (PredictionRequest.disaster_type request) "flood" then
    risk <- predict_flood (PredictionRequest.location request) ;;
    ret (RiskScalar "flood" risk "probability")
  else
    raise (HTTPException 400 "Disaster type not supported").

(** *** [POST /evacuation] *)

(** The comparison of the sort keys [(distance_km, -capacity)]: Python
    orders tuples by their first components that are not [==]. *)
Definition key_lt (k1 k2 : float * Z) : bool :=
  if (fst k1 =? fst k2)%float then
    if (snd k1 =? snd k2)%Z then false else (snd k1 <? snd k2)%Z
  else (fst k1 <? fst k2)%float.

Definition shelter_key (c : Candidate.t) : float * Z :=
  (Candidate.distance_km c, (- Candidate.capacity c)%Z).

(** The body of the loop over [models.shelters.iterrows()]. *)
Definition consider (request : EvacuationRequest.t) (shelters : list Candidate.t)
  (shelter : Shelter) : list Candidate.t :=
  let start_point := (lat (EvacuationRequest.start_point request),
                      lon (EvacuationRequest.start_point request)) in
  let shelter_point := (y (geometry shelter), x (geometry shelter)) in
  let distance := great_circle platform start_point shelter_point in
  if (EvacuationRequest.disaster_radius request <? distance)%float then
    shelters ++ [Candidate.mk (id shelter)
                   (mkLocation (fst shelter_point) (snd shelter_point))
                   distance (capacity shelter)]
  else shelters.

Definition get_evacuation_route (request : EvacuationRequest.t)
  : M EvacuationPlan.t :=
  let shelters := fold_left (consider request) (shelters models) [] in
  let shelters := sorted shelter_key key_lt shelters in
  match shelters with
  | [] => raise (HTTPException 404 "No safe shelters found within parameters")
  | first :: _ =>
      ret (EvacuationPlan.mk first (slice 1 4 shelters)
             (EvacuationRequest.disaster_type request))
  end.

End Backend.

(** ** [GET /alerts] and [class DataFetcher]

    The alert feeds answer with JSON that the endpoint takes apart with
    subscripts, so the values are modelled as Python sees them after
    decoding, and a subscript raises what it raises there. *)
Module Alerts.

(** A decoded JSON document.  The items of an object are those of the
    [dict] it decodes to, in insertion order, each key once; a string is
    the sequence of its characters. *)
#[local] Set Warnings "-register-all".

Inductive json : Type :=
| JNull
| JBool (b : bool)
| JInt (z : Z)
| JFloat (f : float)
| JStr (s : string)
| JArr (items : list json)
| JObj (items : list (string * json)).

(** The key of a failed lookup. *)
Inductive key : Type :=
| KStr (s : string)
| KInt (i : Z).

Inductive error : Type :=
| KeyError (k : key)
| TypeError
| IndexError
| AttributeError
| OverflowError
(** the request or the decoding of its answer raised *)
| ClientError
(** [datetime.fromtimestamp] refused its argument *)
| OutOfRange.

Inductive result (X : Type) : Type :=
| Ok (x : X)
| Err (e : error).

Arguments Ok {X} x.
Arguments Err {X} e.

(** A GET request: the address and the query parameters. *)
Inductive param : Type :=
| PStr (s : string)
| PFloat (f : float).

Record Request : Type := mkRequest {
  url : string;
  params : list (string * param)
}.

(** What the endpoint has done to the outside: the readings of the clock
    taken and the requests sent, in order. *)
Record Net : Type := mkNet {
  clock : nat;
  sent : list Request
}.

(** The feeds and the library functions of the endpoint. *)
Record Feeds : Type := mkFeeds {
  (** the decoded answer to the [k]-th request sent, if it arrives and
      decodes *)
  respond : nat -> Request -> option json;
  (** [a / b] on integers, correctly rounded, if it fits a [float] *)
  int_truediv : Z -> Z -> option float;
  (** [datetime.fromtimestamp], in local time *)
  fromtimestamp : float -> option datetime
}.

Definition N (X : Type) : Type := Net -> result X * Net.

Definition ret {X} (x : X) : N X := fun w => (Ok x, w).

Definition raise {X} (e : error) : N X := fun w => (Err e, w).

Definition bind {X Y} (c : N X) (k : X -> N Y) : N Y :=
  fun w =>
    match c w with
    | (Ok x, w') => k x w'
    | (Err e, w') => (Err e, w')
    end.

Notation "x <~ c ;; k" := (bind c (fun x => k))
  (at level 61, c at next level, right associativity).

(** The body of a comprehension, element by element. *)
Fixpoint each {X Y} (f : X -> N Y) (l : list X) : N (list Y) :=
  match l with
  | [] => ret []
  | x :: l' => y <~ f x ;; ys <~ each f l' ;; ret (y :: ys)
  end.

(** The first item of an object under a key. *)
Fixpoint assoc (k : string) (items : list (string * json)) : option json :=
  match items with
  | [] => None
  | (k', v) :: items' => if String.eqb k' k then Some v else assoc k items'
  end.

(** [v[k]] for a string [k]. *)
Definition getitem (v : json) (k : string) : N json :=
  match v with
  | JObj items =>
      match assoc k items with
      | Some x => ret x
      | None => raise (KeyError (KStr k))
      end
  | _ => raise TypeError
  end.

(** [v[i]] for an index [i >= 0]. *)
Definition getitem_at (v : json) (i : nat) : N json :=
  match v with
  | JArr items =>
      match nth_error items i with
      | Some x => ret x
      | None => raise IndexError
      end
  | JStr s =>
      match String.get i s with
      | Some c => ret (JStr (String c EmptyString))
      | None => raise IndexError
      end
  | JObj _ => raise (KeyError (KInt (Z.of_nat i)))
  | _ => raise TypeError
  end.

(** [data.get(k, [])] *)
Definition get_or_empty (data : json) (k : string) : N json :=
  match data with
  | JObj items =>
      match assoc k items with
      | Some x => ret x
      | None => ret (JArr [])
      end
  | _ => raise AttributeError
  end.

(** What [for e in v] goes through: the items of a list, the keys of an
    object, the characters of a string. *)
Definition iterate (v : json) : N (list json) :=
  match v with
  | JArr items => ret items
  | JObj items => ret (map (fun kv => JStr (fst kv)) items)
  | JStr s => ret (map (fun c => JStr (String c EmptyString)) (list_ascii_of_string s))
  | _ => raise TypeError
  end.

Section Endpoint.
Variable platform : Platform.
Variable feeds : Feeds.

(** [v / 1000] *)
Definition per_thousand (v : json) : N float :=
  match v with
  | JInt z =>
      match int_truediv feeds z 1000 with
      | Some q => ret q
      | None => raise OverflowError
      end
  | JBool b =>
      match int_truediv feeds (Z.b2z b) 1000 with
      | Some q => ret q
      | None => raise OverflowError
      end
  | JFloat f => ret (f / 1000)%float
  | _ => raise TypeError
  end.

(** [datetime.now()] *)
Definition read_clock : N datetime :=
  fun w => (Ok (now platform (clock w)), mkNet (S (clock w)) (sent w)).

(** [dt - timedelta(days=d)] *)
Definition days_before (dt : datetime) (d : Z) : N datetime :=
  if (Z.abs d <=? 999999999)%Z then
    let o := (toordinal dt - d)%Z in
    if ((1 <=? o) && (o <=? MAXORDINAL))%Z
    then ret (mkDatetime o (microsecond_of_day dt))
    else raise OverflowError
  else raise OverflowError.

(** [session.get(url, params=params)] and [response.json()] *)
Definition http_get (r : Request) : N json :=
  fun w =>
    let w' := mkNet (clock w) (sent w ++ [r]) in
    match respond feeds (length (sent w)) r with
    | Some data => (Ok data, w')
    | None => (Err ClientError, w')
    end.

Definition USGS_URL : string := "https://earthquake.usgs.gov/fdsnws/event/1/query".

Definition NOAA_URL : string := "https://api.weather.gov/alerts/active".

(** *** [class DataFetcher] *)

Definition fetch_earthquakes (days : Z) : N json :=
  n <~ read_clock ;;
  start <~ days_before n days ;;
  data <~ http_get (mkRequest USGS_URL
                      [("format", PStr "geojson");
                       ("starttime", PStr (isoformat platform start));
                       ("minmagnitude", PFloat 2.5)]%string) ;;
  get_or_empty data "features".

Definition fetch_weather_alerts : N json :=
  data <~ http_get (mkRequest NOAA_URL []) ;;
  get_or_empty data "features".

(** *** The response *)

Record Coordinates : Type := mkCoordinates { lat : json; lon : json }.

Record Earthquake : Type := mkEarthquake {
  magnitude : json;
  location : Coordinates;
  time : string
}.

Record WeatherAlert : Type := mkWeatherAlert {
  event : json;
  severity : json;
  area : json
}.

Record Response : Type := mkResponse {
  earthquakes : list Earthquake;
  weather_alerts : list WeatherAlert
}.

(** The entry of one earthquake, its fields in the order they are read. *)
Definition earthquake_entry (e : json) : N Earthquake :=
  properties <~ getitem e "properties" ;;
  mag <~ getitem properties "mag" ;;
  geometry <~ getitem e "geometry" ;;
  coordinates <~ getitem geometry "coordinates" ;;
  latitude <~ getitem_at coordinates 1 ;;
  geometry' <~ getitem e "geometry" ;;
  coordinates' <~ getitem geometry' "coordinates" ;;
  longitude <~ getitem_at coordinates' 0 ;;
  properties' <~ getitem e "properties" ;;
  milliseconds <~ getitem properties' "time" ;;
  seconds <~ per_thousand milliseconds ;;
  match fromtimestamp feeds seconds with
  | Some d =>
      ret (mkEarthquake mag (mkCoordinates latitude longitude)
             (isoformat platform d))
  | None => raise OutOfRange
  end.

(** The entry of one weather alert. *)
Definition weather_entry (a : json) : N WeatherAlert :=
  properties <~ getitem a "properties" ;;
  ev <~ getitem properties "event" ;;
  properties' <~ getitem a "properties" ;;
  sev <~ getitem properties' "severity" ;;
  properties'' <~ getitem a "properties" ;;
  ar <~ getitem properties'' "areaDesc" ;;
  ret (mkWeatherAlert ev sev ar).

Definition get_realtime_alerts : N Response :=
  earthquakes <~ fetch_earthquakes 1 ;;
  weather_alerts <~ fetch_weather_alerts ;;
  es <~ iterate earthquakes ;;
  quakes <~ each earthquake_entry es ;;
  ws <~ iterate weather_alerts ;;
  alerts <~ each weather_entry ws ;;
  ret (mkResponse quakes alerts).

End Endpoint.

End Alerts.

(** ** The alert list of the frontend

    [fetchAlerts] and the "Recent Alerts" list of [FRONTEND.py], the
    React component that calls the service. *)
Module Frontend.

(** An entry of the [alerts] state: an entry of the response with its
    [type], ['earthquake'] or ['weather']. *)
Inductive Alert : Type :=
| EarthquakeAlert (e : Alerts.Earthquake)
| WeatherNotice (a : Alerts.WeatherAlert).

(** [fetchAlerts]: the new [alerts] state, given the old one and the
    data of the response, if the request succeeded. *)
Definition fetchAlerts (alerts : list Alert) (response : option Alerts.Response)
  : list Alert :=
  match response with
  | Some data =>
      map EarthquakeAlert (Alerts.earthquakes data)
      ++ map WeatherNotice (Alerts.weather_alerts data)
  | None => alerts
  end.

(** The alerts listed under "Recent Alerts": [alerts.slice(0, 5)]. *)
Definition recent (alerts : list Alert) : list Alert := slice 0 5 alerts.

End Frontend.

(** * The vocabulary of the properties *)

(** ** Numbers and orders *)

(** [x] is a number. *)
Definition not_nan (x : float) : Prop := is_nan x = false.

(** The distance of a key is a number. *)
Definition key_ok (k : float * Z) : Prop := not_nan (fst k).

Section Ranking.
Variables (A K : Type) (key : A -> K) (lt : K -> K -> bool).

(** [b] may come after [a]: it is not smaller. *)
Definition precedes (a b : A) : Prop := lt (key b) (key a) = false.

(** Neither is smaller than the other. *)
Definition tied (a b : A) : bool :=
  negb (lt (key a) (key b)) && negb (lt (key b) (key a)).

End Ranking.

(** ** Evacuation planning *)

Section EvacuationVocabulary.
Variable platform : Platform.
Variable models : DisasterModels.
Variable request : EvacuationRequest.t.

(** The great-circle distance from the start point to a shelter. *)
Definition distance_to (shelter : Shelter) : float :=
  great_circle platform
    (lat (EvacuationRequest.start_point request),
     lon (EvacuationRequest.start_point request))
    (y (geometry shelter), x (geometry shelter)).

(** The entry the loop builds for a shelter. *)
Definition candidate (shelter : Shelter) : Candidate.t :=
  Candidate.mk (id shelter)
    (mkLocation (y (geometry shelter)) (x (geometry shelter)))
    (distance_to shelter) (capacity shelter).

(** The test of the loop: strictly outside the disaster radius. *)
Definition safe (c : Candidate.t) : bool :=
  (EvacuationRequest.disaster_radius request <? Candidate.distance_km c)%float.

(** The shelters that pass the radius filter, in dataset order. *)
Definition survivors : list Candidate.t :=
  filter safe (map candidate (shelters models)).

(** The survivors as the endpoint ranks them. *)
Definition ranked : list Candidate.t :=
  sorted shelter_key key_lt survivors.

(** A shelter of the plan: a shelter of the dataset, with its distance
    from the start point, strictly outside the disaster radius. *)
Definition outside_radius (c : Candidate.t) : Prop :=
  (EvacuationRequest.disaster_radius request <? Candidate.distance_km c)%float = true
  /\ (Candidate.distance_km c <=? EvacuationRequest.disaster_radius request)%float = false
  /\ exists s, In s (shelters models) /\ c = candidate s.

End EvacuationVocabulary.

(** Closer first, and among equally distant shelters the larger first. *)
Definition closer_then_larger (l : list Candidate.t) : Prop :=
  forall i j a b, (i < j)%nat ->
    nth_error l i = Some a -> nth_error l j = Some b ->
    (Candidate.distance_km a <? Candidate.distance_km b)%float = true
    \/ ((Candidate.distance_km a =? Candidate.distance_km b)%float = true
        /\ (Candidate.capacity b <= Candidate.capacity a)%Z).

(** Equal distance and equal capacity. *)
Definition same_rank (a b : Candidate.t) : bool :=
  (Candidate.distance_km a =? Candidate.distance_km b)%float
  && (Candidate.capacity a =? Candidate.capacity b)%Z.

(** Shelters of the same rank are in the order they have in [l0]. *)
Definition ties_in_order_of (l0 l : list Candidate.t) : Prop :=
  forall a, filter (same_rank a) l = filter (same_rank a) l0.

(** The distance of a candidate is a number. *)
Definition measured (c : Candidate.t) : Prop :=
  key_ok (shelter_key c).

(** [a] is closer than [b], or as far and at least as large. *)
Definition ranks_before (a b : Candidate.t) : Prop :=
  (Candidate.distance_km a <? Candidate.distance_km b)%float = true
  \/ ((Candidate.distance_km a =? Candidate.distance_km b)%float = true
      /\ (Candidate.capacity b <= Candidate.capacity a)%Z).

(** The shelters a plan names, the recommended one first. *)
Definition plan_shelters (plan : EvacuationPlan.t) : list Candidate.t :=
  EvacuationPlan.recommended_shelter plan
  :: EvacuationPlan.alternative_shelters plan.

(** The same deployment with another shelter dataset. *)
Definition with_shelters (models : DisasterModels) (data : list Shelter)
  : DisasterModels :=
  mkModels (earthquake_model models) (flood_model models)
    (wildfire_model models) (hurricane_model models)
    (regions models) (evacuation_routes models) data.

(** ** Risk prediction *)

Section PredictionVocabulary.
Variable platform : Platform.

(** The body of the comprehension that builds [dates]. *)
Definition date_step (i : Z) : M datetime :=
  n <- datetime_now platform ;;
  td <- timedelta_days i ;;
  datetime_add n td.

(** The date [i] days after the [k]-th reading of the clock, when the
    calendar has it. *)
Definition date_at (k : nat) (i : Z) : option datetime :=
  let n := now platform k in
  if ((Z.abs i <=? 999999999)
      && ((1 <=? toordinal n + i) && (toordinal n + i <=? MAXORDINAL)))%Z
  then Some (mkDatetime (toordinal n + i) (microsecond_of_day n))
  else None.

(** The dates for the offsets [i, i+1, ...], read from the [k]-th
    reading of the clock on. *)
Fixpoint dates_from (k : nat) (i : Z) (len : nat) : option (list datetime) :=
  match len with
  | O => Some []
  | S len' =>
      match date_at k i with
      | None => None
      | Some d => option_map (cons d) (dates_from (S k) (i + 1) len')
      end
  end.

(** Every day of a window of [n] days is a date of the calendar. *)
Definition window_fits (w : World) (n : Z) : Prop :=
  forall j, (0 <= j < n)%Z ->
    (1 <= toordinal (now platform (clock_reads w + Z.to_nat j)) + j <= MAXORDINAL)%Z
    /\ (j <= 999999999)%Z.

(** The world after [n] more samples were drawn. *)
Definition drawn (w : World) (n : nat) : World :=
  mkWorld (clock_reads w) (rng_draws w + n) (trace w).

(** The world after one more call. *)
Definition called (w : World) (c : Call) : World :=
  mkWorld (clock_reads w) (rng_draws w) (trace w ++ [c]).

(** The feature row of one date. *)
Definition feature_row (location : Location) (date : datetime) : M (list float) :=
  seismic <- uniform platform 0 10 ;;
  depth <- uniform platform 0 100 ;;
  ret [lat location; lon location; float_of_int (tm_yday platform date);
       seismic; depth].

(** The row built from the [k]-th and the next sample. *)
Definition row_of (location : Location) (date : datetime) (k : nat) : list float :=
  [lat location; lon location; float_of_int (tm_yday platform date);
   (0 + (10 - 0) * random_sample platform k)%float;
   (0 + (100 - 0) * random_sample platform (S k))%float].

End PredictionVocabulary.

(** ** What the models and the platform are relied on for *)

(** The sequence model answers a single batch with one risk per row. *)
Definition one_risk_per_day
  (model : list (list (list float)) -> option (list (list float))) : Prop :=
  forall rows, exists out rest,
    model [rows] = Some (out :: rest) /\ length out = length rows.

(** Dates on different days are rendered differently. *)
Definition renders_days_apart (platform : Platform) : Prop :=
  forall d1 d2, toordinal d1 <> toordinal d2 ->
    isoformat platform d1 <> isoformat platform d2.

(** The disaster types a request may name (the comment on
    [PredictionRequest.disaster_type]). *)
Definition DISASTER_TYPES : list string :=
  ["earthquake"; "flood"; "wildfire"; "hurricane"]%string.



(** The sequence model answers a single batch with [m] risks, however
    many rows the batch has. *)
Definition sequence_of_length (m : nat)
  (model : list (list (list float)) -> option (list (list float))) : Prop :=
  forall rows, exists out rest,
    model [rows] = Some (out :: rest) /\ length out = m.


(** ** Alerts *)

Section AlertsVocabulary.
Variable platform : Platform.
Variable feeds : Alerts.Feeds.

(** The request to the earthquake feed when the clock shows its [k]-th
    reading: events since the same time one day earlier, of magnitude
    2.5 at least. *)
Definition usgs_request (k : nat) : Alerts.Request :=
  Alerts.mkRequest Alerts.USGS_URL
    [("format", Alerts.PStr "geojson");
     ("starttime",
      Alerts.PStr (isoformat platform
                     (mkDatetime (toordinal (now platform k) - 1)
                        (microsecond_of_day (now platform k)))));
     ("minmagnitude", Alerts.PFloat 2.5)]%string.

(** The request to the weather feed. *)
Definition noaa_request : Alerts.Request :=
  Alerts.mkRequest Alerts.NOAA_URL [].

(** The clock reading has a day before it. *)
Definition has_yesterday (k : nat) : Prop :=
  (1 <= toordinal (now platform k) - 1 <= MAXORDINAL)%Z.

(** A feature of the earthquake feed as the endpoint needs it: an object
    with a magnitude and a time in milliseconds under [properties] and
    a position under [geometry], longitude first. *)
Definition quake_feature (e mag lon lat : Alerts.json) (ms : Z) : Prop :=
  exists items props geom coords,
    e = Alerts.JObj items
    /\ Alerts.assoc "properties" items = Some (Alerts.JObj props)
    /\ Alerts.assoc "mag" props = Some mag
    /\ Alerts.assoc "time" props = Some (Alerts.JInt ms)
    /\ Alerts.assoc "geometry" items = Some (Alerts.JObj geom)
    /\ Alerts.assoc "coordinates" geom = Some (Alerts.JArr coords)
    /\ nth_error coords 0 = Some lon
    /\ nth_error coords 1 = Some lat.

(** The entry that reports a feature: its magnitude as it is, its
    position as latitude and longitude, its time in seconds rendered as
    a local date. *)
Definition reports_quake (e : Alerts.json) (entry : Alerts.Earthquake) : Prop :=
  exists mag lon lat ms seconds d,
    quake_feature e mag lon lat ms
    /\ Alerts.int_truediv feeds ms 1000 = Some seconds
    /\ Alerts.fromtimestamp feeds seconds = Some d
    /\ entry = Alerts.mkEarthquake mag (Alerts.mkCoordinates lat lon)
                 (isoformat platform d).

(** The entry that reports a feature of the weather feed. *)
Definition reports_alert (a : Alerts.json) (entry : Alerts.WeatherAlert) : Prop :=
  exists items props ev sev ar,
    a = Alerts.JObj items
    /\ Alerts.assoc "properties" items = Some (Alerts.JObj props)
    /\ Alerts.assoc "event" props = Some ev
    /\ Alerts.assoc "severity" props = Some sev
    /\ Alerts.assoc "areaDesc" props = Some ar
    /\ entry = Alerts.mkWeatherAlert ev sev ar.

End AlertsVocabulary.

(** * A test deployment

    Doubles for the platform and the model artifacts, and a small
    reference dataset, on which the service can be run. *)
Module Demo.

(** Noon of 2026-11-04. *)
Definition today : datetime := mkDatetime 739924 43200000000.

(** The day number in decimal stands for the rendered date. *)
Definition render_day (d : datetime) : string :=
  DecimalString.NilEmpty.string_of_int (Z.to_int (toordinal d)).

(** A flat-earth stand-in for the great-circle distance: 100 km per
    degree along each axis. *)
Definition flat_distance (p q : float * float) : float :=
  (100 * (abs (fst q - fst p) + abs (snd q - snd p)))%float.

(** Axis-aligned boxes stand for polygons: the first two vertices are
    the lower-left and upper-right corners. *)
Definition in_box (poly : list Point) (p : Point) : bool :=
  match poly with
  | lo :: hi :: _ =>
      ((x lo <? x p) && (x p <? x hi) && (y lo <? y p) && (y p <? y hi))%float
  | _ => false
  end.

Definition platform : Platform :=
  {| now := fun _ => today;
     random_sample := fun k => if Nat.even k then 0.25%float else 0.5%float;
     isoformat := render_day;
     tm_yday := fun d => 308%Z;
     great_circle := flat_distance;
     contains := in_box |}.

(** A sequence model that reports a risk of one quarter for every day of
    every batch, and a classifier that reports 0.75 for the positive class. *)
Definition per_day (batch : list (list (list float))) : option (list (list float)) :=
  Some (map (map (fun _ => 0.25%float)) batch).

Definition classifier (batch : list (list float)) : option (list (list float)) :=
  Some (map (fun _ => [0.25%float; 0.75%float]) batch).

(** A sequence model that reads the risk of a day off its simulated
    seismic activity, a tenth of it. *)
Definition seismic_tenth (batch : list (list (list float)))
  : option (list (list float)) :=
  Some (map (map (fun row => (nth 3 row 0 / 10)%float)) batch).

Definition shelter_data : list Shelter :=
  [ mkShelter "S1" (mkPoint (-75)%float 40.25%float) 20;
    mkShelter "S2" (mkPoint (-75)%float 40.625%float) 100;
    mkShelter "S3" (mkPoint (-75.5)%float 40%float) 10;
    mkShelter "S4" (mkPoint (-75)%float 39%float) 50;
    mkShelter "S5" (mkPoint (-75)%float 41%float) 80 ].

Definition region_data : list Region :=
  [ mkRegion [mkPoint (-76)%float 39%float; mkPoint (-74)%float 41%float]
      12%float 3%float 0.5%float ].

Definition models : DisasterModels :=
  {| earthquake_model := per_day;
     flood_model := classifier;
     wildfire_model := classifier;
     hurricane_model := per_day;
     regions := region_data;
     evacuation_routes := [];
     shelters := shelter_data |}.

(** The same deployment with the model that looks at its features. *)
Definition seismic_models : DisasterModels :=
  {| earthquake_model := seismic_tenth;
     flood_model := classifier;
     wildfire_model := classifier;
     hurricane_model := per_day;
     regions := region_data;
     evacuation_routes := [];
     shelters := shelter_data |}.

Definition world : World := mkWorld 0 0 [].

Definition philadelphia : Location := mkLocation 40%float (-75)%float.

Definition sahara : Location := mkLocation 23%float 13%float.

(** A 50 km danger zone around the first location: S1 lies inside it,
    S3 exactly on its edge, S4 and S5 at the same distance outside. *)
Definition evacuation : EvacuationRequest.t :=
  EvacuationRequest.mk philadelphia "flood" 50%float.

(** The plan it is answered with: S2 is the closest shelter outside the
    zone, and S5 goes before S4 for its capacity. *)
Definition plan : EvacuationPlan.t :=
  EvacuationPlan.mk
    (Candidate.mk "S2" (mkLocation 40.625%float (-75)%float) 62.5%float 100)
    [ Candidate.mk "S5" (mkLocation 41%float (-75)%float) 100%float 80;
      Candidate.mk "S4" (mkLocation 39%float (-75)%float) 100%float 50 ]
    "flood".

End Demo.

(** Further requests and data on the test deployment. *)
Module Drill.

(** The danger zone of [Demo.evacuation] narrowed to 10 km. *)
Definition narrow : EvacuationRequest.t :=
  EvacuationRequest.mk Demo.philadelphia "flood" 10%float.

(** A request whose radius is not a number. *)
Definition undefined_radius : EvacuationRequest.t :=
  EvacuationRequest.mk Demo.philadelphia "flood" nan.

(** The shelters with no two at the same distance, and the same ones
    listed backwards. *)
Definition spread : list Shelter :=
  [ mkShelter "S1" (mkPoint (-75)%float 40.25%float) 20;
    mkShelter "S2" (mkPoint (-75)%float 40.625%float) 100;
    mkShelter "S5" (mkPoint (-75)%float 41%float) 80 ].

Definition spread_backwards : list Shelter := rev spread.

(** A sequence model that answers with the risk of the last step only. *)
Definition last_step (batch : list (list (list float)))
  : option (list (list float)) :=
  Some (map (fun _ => [0.25%float]) batch).

Definition last_step_models : DisasterModels :=
  mkModels last_step Demo.classifier Demo.classifier Demo.per_day
    Demo.region_data [] Demo.shelter_data.

(** A sequence model that refuses a batch with a sequence of no time
    step, and answers the others with a risk per step. *)
Definition needs_timesteps (batch : list (list (list float)))
  : option (list (list float)) :=
  if forallb (fun rows => negb (Nat.eqb (length rows) 0)) batch
  then Demo.per_day batch
  else None.

Definition strict_models : DisasterModels :=
  mkModels needs_timesteps Demo.classifier Demo.classifier Demo.per_day
    Demo.region_data [] Demo.shelter_data.

(** Two regions over the first location, the smaller one listed first. *)
Definition overlapping : list Region :=
  [ mkRegion [mkPoint (-75.5)%float 39.5%float; mkPoint (-74.5)%float 40.5%float]
      3%float 1%float 0.75%float;
    mkRegion [mkPoint (-76)%float 39%float; mkPoint (-74)%float 41%float]
      12%float 3%float 0.5%float ].

Definition overlapping_models : DisasterModels :=
  mkModels Demo.per_day Demo.classifier Demo.classifier Demo.per_day
    overlapping [] Demo.shelter_data.

(** The feeds: one earthquake off the coast of Japan and one flood
    warning. *)
Definition quake : Alerts.json :=
  Alerts.JObj
    [("type", Alerts.JStr "Feature");
     ("properties",
      Alerts.JObj [("mag", Alerts.JFloat 4.5); ("place", Alerts.JStr "Honshu");
                   ("time", Alerts.JInt 1793793600000)]);
     ("geometry",
      Alerts.JObj [("type", Alerts.JStr "Point");
                   ("coordinates",
                    Alerts.JArr [Alerts.JFloat 142.5; Alerts.JFloat 38.25;
                                 Alerts.JFloat 10])])]%string.

(** A feature that has lost its properties. *)
Definition broken_quake : Alerts.json :=
  Alerts.JObj [("type", Alerts.JStr "Feature")]%string.

Definition warning : Alerts.json :=
  Alerts.JObj
    [("properties",
      Alerts.JObj [("event", Alerts.JStr "Flood Warning");
                   ("severity", Alerts.JStr "Severe");
                   ("areaDesc", Alerts.JStr "Bucks, PA")])]%string.

Definition collection (features : list Alerts.json) : Alerts.json :=
  Alerts.JObj [("type", Alerts.JStr "FeatureCollection");
               ("features", Alerts.JArr features)]%string.

(** An answer that reports an error instead of features. *)
Definition refusal : Alerts.json :=
  Alerts.JObj [("status", Alerts.JInt 403)]%string.

(** The feeds answer by address, whatever the time; the division is
    that of doubles, and every time is rendered as today. *)
Definition feeds (usgs noaa : option Alerts.json) : Alerts.Feeds :=
  Alerts.mkFeeds
    (fun _ r => if String.eqb (Alerts.url r) Alerts.USGS_URL then usgs else noaa)
    (fun a b => Some (float_of_int a / float_of_int b)%float)
    (fun _ => Some Demo.today).

Definition net : Alerts.Net := Alerts.mkNet 0 [].

End Drill.

(** * Properties *)

Unset Implicit Arguments.

(** ** The order of binary64 numbers

    [<?] and [=?] on floats that are not NaN form a total preorder whose
    equivalence is [=?] (it identifies the two zeros).  The facts are
    read off the specification [SFcompare] of the primitive comparison. *)
Module FloatOrder.

Ltac cmp_cases :=
  repeat match goal with
  | |- context [Z.compare ?a ?b] => destruct (Z.compare_spec a b)
  | |- context [Pos.compare_cont Eq ?a ?b] =>
      change (Pos.compare_cont Eq a b) with (Pos.compare a b);
      destruct (Pos.compare_spec a b)
  | H : context [Z.compare ?a ?b] |- _ => destruct (Z.compare_spec a b)
  | H : context [Pos.compare_cont Eq ?a ?b] |- _ =>
      change (Pos.compare_cont Eq a b) with (Pos.compare a b) in H;
      destruct (Pos.compare_spec a b)
  end.

Lemma SFcompare_refl a : a <> S754_nan -> SFcompare a a = Some Eq.
Proof.
  destruct a as [s| s| |s m e]; simpl; try congruence; intros _;
    destruct s; try reflexivity;
    rewrite Z.compare_refl;
    change (Pos.compare_cont Eq m m) with (Pos.compare m m);
    rewrite Pos.compare_refl; reflexivity.
Qed.

Lemma SFcompare_nan_l a b c : SFcompare a b = Some c -> a <> S754_nan.
Proof. destruct a; simpl; congruence. Qed.

Lemma SFcompare_nan_r a b c : SFcompare a b = Some c -> b <> S754_nan.
Proof. destruct a, b; simpl; congruence. Qed.

Lemma SFcompare_total a b :
  a <> S754_nan -> b <> S754_nan -> exists c, SFcompare a b = Some c.
Proof.
  destruct a, b; simpl; try congruence; intros _ _; eexists; reflexivity.
Qed.

Lemma SFcompare_antisym a b :
  SFcompare b a = option_map CompOpp (SFcompare a b).
Proof.
  destruct a as [s1| s1| |s1 m1 e1], b as [s2| s2| |s2 m2 e2]; simpl;
    try reflexivity; try (destruct s1; reflexivity); try (destruct s2; reflexivity);
    try (destruct s1, s2; reflexivity).
  destruct s1, s2; try reflexivity;
    rewrite (Z.compare_antisym e1 e2);
    change (Pos.compare_cont Eq m2 m1) with (Pos.compare m2 m1);
    change (Pos.compare_cont Eq m1 m2) with (Pos.compare m1 m2);
    rewrite (Pos.compare_antisym m1 m2);
    destruct (Z.compare e1 e2); simpl; try reflexivity;
    destruct (Pos.compare m1 m2); reflexivity.
Qed.

Lemma SFcompare_trans a b c r :
  SFcompare a b = Some r -> SFcompare b c = Some r -> SFcompare a c = Some r.
Proof.
  destruct a as [s1| s1| |s1 m1 e1], b as [s2| s2| |s2 m2 e2],
    c as [s3| s3| |s3 m3 e3]; simpl; try discriminate;
    try (destruct s1; try destruct s2; try destruct s3; simpl; congruence);
    try (destruct s2; try destruct s3; simpl; congruence);
    try (destruct s3; simpl; congruence).
  all: try (destruct s1, s2; simpl; congruence).
  all: try (destruct s1, s3; simpl; congruence).
  destruct s1, s2, s3; try congruence; intros H1 H2;
    injection H1 as H1; injection H2 as H2; f_equal; subst r;
    cmp_cases; subst; try reflexivity; try discriminate; try lia.
Qed.

Lemma SFcompare_eq_l a b c :
  SFcompare a b = Some Eq -> SFcompare a c = SFcompare b c.
Proof.
  destruct a as [s1| s1| |s1 m1 e1], b as [s2| s2| |s2 m2 e2],
    c as [s3| s3| |s3 m3 e3]; simpl; try discriminate; try reflexivity;
    try (destruct s1; try destruct s2; try destruct s3; simpl; congruence);
    try (destruct s2; try destruct s3; simpl; congruence);
    try (destruct s3; simpl; congruence).
  all: try (destruct s1, s2; simpl; congruence).
  all: try (destruct s1, s3; simpl; congruence).
  destruct s1, s2, s3; try congruence; intros H1;
    injection H1 as H1; f_equal;
    cmp_cases; subst; try reflexivity; try discriminate; try lia.
Qed.

Lemma SFcompare_eq_r a b c :
  SFcompare a b = Some Eq -> SFcompare c a = SFcompare c b.
Proof.
  intros H. rewrite (SFcompare_antisym a c), (SFcompare_antisym b c).
  now rewrite (SFcompare_eq_l _ _ c H).
Qed.

Lemma not_nan_spec x : not_nan x <-> Prim2SF x <> S754_nan.
Proof.
  unfold not_nan, is_nan. rewrite FloatAxioms.eqb_spec. unfold SFeqb. split.
  - intros H E. rewrite E in H. discriminate.
  - intros H. now rewrite (SFcompare_refl _ H).
Qed.

Lemma eqb_refl x : not_nan x -> (x =? x)%float = true.
Proof. unfold not_nan, is_nan. now destruct (x =? x)%float. Qed.

Lemma eqb_sym x y : (x =? y)%float = (y =? x)%float.
Proof.
  rewrite !FloatAxioms.eqb_spec. unfold SFeqb. rewrite (SFcompare_antisym (Prim2SF x)).
  now destruct (SFcompare (Prim2SF x) (Prim2SF y)) as [[]|].
Qed.

Lemma eqb_true_compare x y :
  (x =? y)%float = true <-> SFcompare (Prim2SF x) (Prim2SF y) = Some Eq.
Proof.
  rewrite FloatAxioms.eqb_spec. unfold SFeqb.
  destruct (SFcompare (Prim2SF x) (Prim2SF y)) as [[]|]; split; congruence.
Qed.

Lemma ltb_true_compare x y :
  (x <? y)%float = true <-> SFcompare (Prim2SF x) (Prim2SF y) = Some Lt.
Proof.
  rewrite FloatAxioms.ltb_spec. unfold SFltb.
  destruct (SFcompare (Prim2SF x) (Prim2SF y)) as [[]|]; split; congruence.
Qed.

Lemma eqb_not_nan_l x y : (x =? y)%float = true -> not_nan x.
Proof.
  rewrite eqb_true_compare, not_nan_spec. apply SFcompare_nan_l.
Qed.

Lemma eqb_not_nan_r x y : (x =? y)%float = true -> not_nan y.
Proof. rewrite eqb_sym. apply eqb_not_nan_l. Qed.

Lemma ltb_not_nan_l x y : (x <? y)%float = true -> not_nan x.
Proof.
  rewrite ltb_true_compare, not_nan_spec. apply SFcompare_nan_l.
Qed.

Lemma ltb_not_nan_r x y : (x <? y)%float = true -> not_nan y.
Proof.
  rewrite ltb_true_compare, not_nan_spec. apply SFcompare_nan_r.
Qed.

Lemma eqb_ltb_l x y z :
  (x =? y)%float = true -> (x <? z)%float = (y <? z)%float.
Proof.
  rewrite eqb_true_compare, !FloatAxioms.ltb_spec. unfold SFltb. intros H.
  now rewrite (SFcompare_eq_l _ _ _ H).
Qed.

Lemma eqb_ltb_r x y z :
  (x =? y)%float = true -> (z <? x)%float = (z <? y)%float.
Proof.
  rewrite eqb_true_compare, !FloatAxioms.ltb_spec. unfold SFltb. intros H.
  now rewrite (SFcompare_eq_r _ _ _ H).
Qed.

Lemma eqb_eqb_l x y z :
  (x =? y)%float = true -> (x =? z)%float = (y =? z)%float.
Proof.
  rewrite eqb_true_compare, !FloatAxioms.eqb_spec. unfold SFeqb. intros H.
  now rewrite (SFcompare_eq_l _ _ _ H).
Qed.

Lemma ltb_trans x y z :
  (x <? y)%float = true -> (y <? z)%float = true -> (x <? z)%float = true.
Proof. rewrite !ltb_true_compare. apply SFcompare_trans. Qed.

Lemma ltb_asym x y : (x <? y)%float = true -> (y <? x)%float = false.
Proof.
  rewrite ltb_true_compare, FloatAxioms.ltb_spec. unfold SFltb. intros H.
  now rewrite (SFcompare_antisym (Prim2SF x)), H.
Qed.

Lemma ltb_not_eqb x y : (x <? y)%float = true -> (x =? y)%float = false.
Proof.
  rewrite ltb_true_compare, FloatAxioms.eqb_spec. unfold SFeqb. now intros ->.
Qed.

Lemma ltb_not_leb x y : (x <? y)%float = true -> (y <=? x)%float = false.
Proof.
  rewrite ltb_true_compare, FloatAxioms.leb_spec. unfold SFleb. intros H.
  now rewrite (SFcompare_antisym (Prim2SF x)), H.
Qed.

Lemma trichotomy x y :
  not_nan x -> not_nan y ->
  (x <? y)%float = true \/ (x =? y)%float = true \/ (y <? x)%float = true.
Proof.
  rewrite !not_nan_spec. intros Hx Hy.
  destruct (SFcompare_total _ _ Hx Hy) as [c Hc].
  rewrite !FloatAxioms.ltb_spec, FloatAxioms.eqb_spec. unfold SFltb, SFeqb.
  rewrite (SFcompare_antisym (Prim2SF x) (Prim2SF y)), Hc.
  destruct c; simpl; auto.
Qed.

End FloatOrder.

(** ** [sorted] *)
Section SortedFacts.
Variables (A K : Type) (key : A -> K) (lt : K -> K -> bool).

Lemma insort_perm x l : Permutation (insort key lt x l) (x :: l).
Proof.
  induction l as [|y l IH]; simpl.
  - apply Permutation_refl.
  - destruct (lt (key x) (key y)).
    + apply Permutation_refl.
    + apply perm_trans with (y :: x :: l).
      * now apply perm_skip.
      * apply perm_swap.
Qed.

Lemma fold_insort_perm l acc :
  Permutation (fold_left (fun acc x => insort key lt x acc) l acc) (acc ++ l).
Proof.
  revert acc. induction l as [|x l IH]; intros acc; simpl.
  - rewrite app_nil_r. apply Permutation_refl.
  - apply perm_trans with (insort key lt x acc ++ l); [apply IH|].
    apply perm_trans with ((x :: acc) ++ l).
    + apply Permutation_app_tail, insort_perm.
    + simpl. apply Permutation_middle.
Qed.

Lemma sorted_perm l : Permutation (sorted key lt l) l.
Proof. apply (fold_insort_perm l []). Qed.

Lemma sorted_nil_iff l : sorted key lt l = [] <-> l = [].
Proof.
  split.
  - intros H. apply Permutation_nil. rewrite <- H. apply sorted_perm.
  - intros ->. reflexivity.
Qed.

(** The elements the order is consistent on. *)
Variable ok : A -> Prop.

Hypothesis lt_asym :
  forall a b, lt (key a) (key b) = true -> lt (key b) (key a) = false.
Hypothesis lt_negtrans :
  forall a b c, ok a -> ok b -> ok c ->
    lt (key a) (key b) = false -> lt (key b) (key c) = false ->
    lt (key a) (key c) = false.

Lemma insort_ok x l : ok x -> Forall ok l -> Forall ok (insort key lt x l).
Proof.
  intros Hx Hl. apply (Permutation_Forall (Permutation_sym (insort_perm x l))).
  now constructor.
Qed.

Lemma insort_sorted x l :
  ok x -> Forall ok l -> StronglySorted (precedes key lt) l ->
  StronglySorted (precedes key lt) (insort key lt x l).
Proof.
  intros Hx. induction l as [|y l IH]; intros Hl Hs; simpl.
  - repeat constructor.
  - inversion Hl as [|? ? Hy Hl']; subst.
    inversion Hs as [|? ? Hs' Hyl]; subst.
    destruct (lt (key x) (key y)) eqn:E.
    + constructor; [assumption|]. constructor.
      * exact (lt_asym _ _ E).
      * rewrite Forall_forall in *. intros z Hz.
        apply (lt_negtrans z y x);
          [now apply Hl' | assumption | assumption
          | exact (Hyl z Hz) | exact (lt_asym _ _ E)].
    + constructor; [now apply IH|].
      apply (Permutation_Forall (Permutation_sym (insort_perm x l))).
      constructor; assumption.
Qed.

Lemma fold_insort_sorted l acc :
  Forall ok l -> Forall ok acc -> StronglySorted (precedes key lt) acc ->
  StronglySorted (precedes key lt) (fold_left (fun acc x => insort key lt x acc) l acc).
Proof.
  revert acc. induction l as [|x l IH]; intros acc Hl Ha Hs; simpl.
  - assumption.
  - inversion Hl; subst. apply IH; auto using insort_ok, insort_sorted.
Qed.

Lemma sorted_sorted l :
  Forall ok l -> StronglySorted (precedes key lt) (sorted key lt l).
Proof. intros Hl. apply fold_insort_sorted; auto. constructor. Qed.

Lemma filter_none (f : A -> bool) l :
  (forall z, In z l -> f z = false) -> filter f l = [].
Proof.
  induction l as [|y l IH]; intros H; simpl; [reflexivity|].
  rewrite (H y (or_introl eq_refl)). apply IH. intros z Hz. apply H. now right.
Qed.

(** An element goes right after the elements it is tied with. *)
Lemma insort_tied a x l :
  ok a -> ok x -> Forall ok l -> StronglySorted (precedes key lt) l ->
  filter (tied key lt a) (insort key lt x l)
  = filter (tied key lt a) l ++ (if tied key lt a x then [x] else []).
Proof.
  intros Ha Hx. induction l as [|y l IH]; intros Hl Hs.
  - simpl. now destruct (tied key lt a x).
  - inversion Hl as [|? ? Hy Hl']; subst.
    inversion Hs as [|? ? Hs' Hyl]; subst.
    cbn [insort]. destruct (lt (key x) (key y)) eqn:E.
    + change (filter (tied key lt a) (x :: y :: l))
        with (if tied key lt a x then x :: filter (tied key lt a) (y :: l)
              else filter (tied key lt a) (y :: l)).
      destruct (tied key lt a x) eqn:T; [|now rewrite app_nil_r].
      rewrite filter_none; [reflexivity|].
      intros z Hz. unfold tied in *.
      apply andb_true_iff in T. destruct T as [T1 T2].
      apply negb_true_iff in T1, T2.
      assert (Hzok : ok z).
      { destruct Hz as [<-|Hz]; [assumption|].
        rewrite Forall_forall in Hl'. now apply Hl'. }
      assert (Hxz : lt (key x) (key z) = true).
      { destruct (lt (key x) (key z)) eqn:Exz; [reflexivity|].
        assert (Hzy : lt (key z) (key y) = false).
        { destruct Hz as [<-|Hz].
          - destruct (lt (key y) (key y)) eqn:Eyy; [|reflexivity].
            now rewrite (lt_asym _ _ Eyy) in Eyy.
          - rewrite Forall_forall in Hyl. exact (Hyl z Hz). }
        now rewrite (lt_negtrans x z y Hx Hzok Hy Exz Hzy) in E. }
      destruct (lt (key a) (key z)) eqn:Eaz; [reflexivity|].
      now rewrite (lt_negtrans x a z Hx Ha Hzok T2 Eaz) in Hxz.
    + simpl. rewrite (IH Hl' Hs'). now destruct (tied key lt a y).
Qed.

Lemma fold_insort_tied a l acc :
  ok a -> Forall ok l -> Forall ok acc -> StronglySorted (precedes key lt) acc ->
  filter (tied key lt a) (fold_left (fun acc x => insort key lt x acc) l acc)
  = filter (tied key lt a) acc ++ filter (tied key lt a) l.
Proof.
  intros Ha. revert acc. induction l as [|x l IH]; intros acc Hl Hacc Hs; simpl.
  - now rewrite app_nil_r.
  - inversion Hl; subst.
    rewrite IH; auto using insort_ok, insort_sorted.
    rewrite insort_tied by assumption.
    rewrite <- app_assoc. now destruct (tied key lt a x).
Qed.

(** [sorted] is stable: tied elements keep their input order. *)
Lemma sorted_stable a l :
  ok a -> Forall ok l ->
  filter (tied key lt a) (sorted key lt l) = filter (tied key lt a) l.
Proof.
  intros Ha Hl. apply (fold_insort_tied a l [] Ha Hl); constructor.
Qed.

End SortedFacts.

(** ** The order of the sort keys *)
Module KeyOrder.
Import FloatOrder.

Lemma key_lt_true k1 k2 :
  key_lt k1 k2 = true <->
  (fst k1 <? fst k2)%float = true
  \/ ((fst k1 =? fst k2)%float = true /\ (snd k1 < snd k2)%Z).
Proof.
  unfold key_lt. destruct (fst k1 =? fst k2)%float eqn:E.
  - destruct (Z.eqb_spec (snd k1) (snd k2)) as [Ec|Ec].
    + split; [discriminate|]. intros [H|[_ H]]; [|lia].
      now rewrite (ltb_not_eqb _ _ H) in E.
    + rewrite Z.ltb_lt. split; [now right|].
      intros [H|[_ H]]; [|assumption].
      now rewrite (ltb_not_eqb _ _ H) in E.
  - split; [now left|]. now intros [H|[H _]].
Qed.

Lemma key_lt_false k1 k2 :
  key_ok k1 -> key_ok k2 ->
  (key_lt k1 k2 = false <->
   (fst k2 <? fst k1)%float = true
   \/ ((fst k1 =? fst k2)%float = true /\ (snd k2 <= snd k1)%Z)).
Proof.
  intros H1 H2. split.
  - intros H. destruct (trichotomy _ _ H1 H2) as [L|[E|G]].
    + assert (T : key_lt k1 k2 = true) by (apply key_lt_true; now left).
      congruence.
    + right. split; [assumption|].
      destruct (Z.lt_ge_cases (snd k1) (snd k2)) as [C|C]; [|assumption].
      assert (T : key_lt k1 k2 = true) by (apply key_lt_true; now right).
      congruence.
    + now left.
  - intros H. destruct (key_lt k1 k2) eqn:T; [|reflexivity].
    apply key_lt_true in T.
    destruct H as [G|[E C]], T as [L|[E' C']]; try lia.
    + now rewrite (ltb_asym _ _ G) in L.
    + rewrite eqb_sym in E'. now rewrite (ltb_not_eqb _ _ G) in E'.
    + now rewrite (ltb_not_eqb _ _ L) in E.
Qed.

Lemma key_lt_asym k1 k2 : key_lt k1 k2 = true -> key_lt k2 k1 = false.
Proof.
  intros T. apply key_lt_true in T.
  assert (O1 : key_ok k1).
  { destruct T as [L|[E _]]; [exact (ltb_not_nan_l _ _ L)|exact (eqb_not_nan_l _ _ E)]. }
  assert (O2 : key_ok k2).
  { destruct T as [L|[E _]]; [exact (ltb_not_nan_r _ _ L)|exact (eqb_not_nan_r _ _ E)]. }
  apply (key_lt_false k2 k1 O2 O1).
  destruct T as [L|[E C]]; [now left|right].
  rewrite eqb_sym. split; [assumption|lia].
Qed.

Lemma key_lt_negtrans k1 k2 k3 :
  key_ok k1 -> key_ok k2 -> key_ok k3 ->
  key_lt k1 k2 = false -> key_lt k2 k3 = false -> key_lt k1 k3 = false.
Proof.
  intros O1 O2 O3 H12 H23.
  apply (key_lt_false k1 k2 O1 O2) in H12.
  apply (key_lt_false k2 k3 O2 O3) in H23.
  apply (key_lt_false k1 k3 O1 O3).
  destruct H12 as [G12|[E12 C12]], H23 as [G23|[E23 C23]].
  - left. exact (ltb_trans _ _ _ G23 G12).
  - left. now rewrite <- (eqb_ltb_l _ _ (fst k1) E23).
  - left. now rewrite (eqb_ltb_r _ _ (fst k3) E12).
  - right. split; [|lia]. now rewrite (eqb_eqb_l _ _ (fst k3) E12).
Qed.

End KeyOrder.

(** ** Evacuation planning *)
Section Evacuation.
Variable platform : Platform.
Variable models : DisasterModels.
Variable request : EvacuationRequest.t.

Lemma fold_consider l acc :
  fold_left (consider platform request) l acc
  = acc ++ filter (safe request) (map (candidate platform request) l).
Proof.
  revert acc. induction l as [|s l IH]; intros acc; simpl.
  - now rewrite app_nil_r.
  - rewrite IH. unfold consider, safe at 2. simpl.
    fold (distance_to platform request s).
    destruct (EvacuationRequest.disaster_radius request
              <? distance_to platform request s)%float.
    + now rewrite <- app_assoc.
    + reflexivity.
Qed.

(** The endpoint, read off its three steps. *)
Lemma get_evacuation_route_eq w :
  get_evacuation_route platform models request w
  = match ranked platform models request with
    | [] => (Raise (HTTPException 404 "No safe shelters found within parameters"), w)
    | first :: rest =>
        (Return (EvacuationPlan.mk first (firstn 3 rest)
                   (EvacuationRequest.disaster_type request)), w)
    end.
Proof.
  unfold get_evacuation_route. rewrite fold_consider. simpl.
  fold (survivors platform models request).
  fold (ranked platform models request).
  now destruct (ranked platform models request).
Qed.

Lemma in_ranked c :
  In c (ranked platform models request) <-> In c (survivors platform models request).
Proof.
  split; apply Permutation_in.
  - apply sorted_perm.
  - apply Permutation_sym, sorted_perm.
Qed.

Lemma in_survivors c :
  In c (survivors platform models request) <->
  safe request c = true
  /\ exists s, In s (shelters models) /\ c = candidate platform request s.
Proof.
  unfold survivors. rewrite filter_In, in_map_iff. split.
  - intros [[s [E H]] S]. split; [assumption|]. now exists s.
  - intros [S [s [H E]]]. split; [|assumption]. now exists s.
Qed.

Lemma survivors_nil :
  survivors platform models request = [] <->
  Forall (fun s => (EvacuationRequest.disaster_radius request
                    <? distance_to platform request s)%float = false)
    (shelters models).
Proof.
  unfold survivors. induction (shelters models) as [|s l IH]; simpl.
  - split; [constructor|reflexivity].
  - unfold safe at 1. simpl. fold (distance_to platform request s). split.
    + destruct (EvacuationRequest.disaster_radius request
                <? distance_to platform request s)%float eqn:E;
        [discriminate|].
      intros H. constructor; [assumption|]. now apply IH.
    + intros H. inversion H as [|? ? E H']; subst. rewrite E. now apply IH.
Qed.

End Evacuation.

Lemma StronglySorted_nth {A} (R : A -> A -> Prop) l :
  StronglySorted R l ->
  forall i j a b, (i < j)%nat ->
    nth_error l i = Some a -> nth_error l j = Some b -> R a b.
Proof.
  induction 1 as [|x l Hs IH Hx]; intros i j a b Hij Ha Hb.
  - destruct i; discriminate.
  - destruct j as [|j]; [lia|]. simpl in Hb. destruct i as [|i]; simpl in Ha.
    + injection Ha as <-. rewrite Forall_forall in Hx.
      apply Hx. eapply nth_error_In; eassumption.
    + apply (IH i j); [lia|assumption|assumption].
Qed.

Lemma in_firstn {A} n (l : list A) a : In a (firstn n l) -> In a l.
Proof.
  intros H. rewrite <- (firstn_skipn n l). apply in_or_app. now left.
Qed.

Lemma tied_same_rank a b :
  measured a -> measured b ->
  tied shelter_key key_lt a b = same_rank a b.
Proof.
  intros Ha Hb. unfold tied, same_rank.
  destruct (key_lt (shelter_key a) (shelter_key b)) eqn:Eab; simpl.
  - apply KeyOrder.key_lt_true in Eab. simpl in Eab. symmetry.
    destruct Eab as [L|[E C]].
    + now rewrite (FloatOrder.ltb_not_eqb _ _ L).
    + rewrite E. simpl. apply Z.eqb_neq. lia.
  - apply (KeyOrder.key_lt_false _ _ Ha Hb) in Eab. simpl in Eab.
    destruct (key_lt (shelter_key b) (shelter_key a)) eqn:Eba; simpl.
    + apply KeyOrder.key_lt_true in Eba. simpl in Eba. symmetry.
      destruct Eba as [L|[E C]].
      * rewrite FloatOrder.eqb_sym. now rewrite (FloatOrder.ltb_not_eqb _ _ L).
      * rewrite FloatOrder.eqb_sym, E. simpl. apply Z.eqb_neq. lia.
    + apply (KeyOrder.key_lt_false _ _ Hb Ha) in Eba. simpl in Eba. symmetry.
      destruct Eab as [G|[E C]], Eba as [G'|[E' C']].
      * now rewrite (FloatOrder.ltb_asym _ _ G) in G'.
      * now rewrite (FloatOrder.ltb_not_eqb _ _ G) in E'.
      * now rewrite (FloatOrder.ltb_not_eqb _ _ G') in E.
      * rewrite E. simpl. apply Z.eqb_eq. lia.
Qed.

Lemma survivors_measured platform models request :
  Forall measured (survivors platform models request).
Proof.
  apply Forall_forall. intros c Hc. apply in_survivors in Hc.
  destruct Hc as [S _]. exact (FloatOrder.ltb_not_nan_r _ _ S).
Qed.

(** C3. Every shelter of a returned plan, the recommended one and each
    alternate, is a shelter of the dataset whose great-circle distance
    from the start point is strictly greater than the disaster radius;
    a shelter at a distance equal to the radius, or smaller, is in no plan. *)
Theorem plan_outside_radius platform models request w plan w' :
  get_evacuation_route platform models request w = (Return plan, w') ->
  Forall (outside_radius platform models request)
    (EvacuationPlan.recommended_shelter plan
     :: EvacuationPlan.alternative_shelters plan).
Proof.
  rewrite get_evacuation_route_eq.
  destruct (ranked platform models request) as [|first rest] eqn:E;
    [discriminate|].
  intros H. injection H as <- _. simpl.
  apply Forall_forall. intros c Hc.
  assert (Hin : In c (ranked platform models request)).
  { rewrite E. destruct Hc as [<-|Hc]; [now left|right].
    now apply (in_firstn 3). }
  apply in_ranked, in_survivors in Hin. destruct Hin as [S D].
  unfold safe in S. repeat split; try assumption.
  exact (FloatOrder.ltb_not_leb _ _ S).
Qed.

(** On the test deployment: the three shelters of the plan. *)
Lemma plan_outside_radius_witness :
  Forall (outside_radius Demo.platform Demo.models Demo.evacuation)
    (EvacuationPlan.recommended_shelter Demo.plan
     :: EvacuationPlan.alternative_shelters Demo.plan).
Proof.
  apply (plan_outside_radius Demo.platform Demo.models Demo.evacuation
           Demo.world Demo.plan Demo.world).
  vm_compute. reflexivity.
Defined.

(** C4. When some shelter passes the radius filter, the plan is made of
    the survivors ranked closer first, the larger first among equally
    distant ones, and in dataset order among those that tie on both:
    the recommended shelter is rank 0 and the alternates are ranks 1 to
    3, or as many as there are. *)
Theorem plan_ranking platform models request w :
  survivors platform models request <> [] ->
  let rank := ranked platform models request in
  Permutation rank (survivors platform models request)
  /\ closer_then_larger rank
  /\ ties_in_order_of (survivors platform models request) rank
  /\ exists plan,
       get_evacuation_route platform models request w = (Return plan, w)
       /\ nth_error rank 0 = Some (EvacuationPlan.recommended_shelter plan)
       /\ EvacuationPlan.alternative_shelters plan = firstn 3 (skipn 1 rank).
Proof.
  intros Hne rank.
  pose proof (survivors_measured platform models request) as Hm.
  assert (Hs : StronglySorted (precedes shelter_key key_lt) rank).
  { apply (sorted_sorted _ _ shelter_key key_lt measured).
    - intros a b. apply KeyOrder.key_lt_asym.
    - intros a b c. apply KeyOrder.key_lt_negtrans.
    - assumption. }
  assert (Hrm : Forall measured rank).
  { apply (Permutation_Forall (Permutation_sym (sorted_perm _ _ _ _ _))), Hm. }
  split; [apply sorted_perm|]. split; [|split].
  - intros i j a b Hij Ha Hb.
    pose proof (StronglySorted_nth _ _ Hs i j a b Hij Ha Hb) as P.
    rewrite Forall_forall in Hrm.
    apply (KeyOrder.key_lt_false (shelter_key b) (shelter_key a)) in P.
    + simpl in P. destruct P as [L|[E C]]; [now left|right].
      rewrite FloatOrder.eqb_sym. split; [assumption|lia].
    + apply Hrm. eapply nth_error_In; eassumption.
    + apply Hrm. eapply nth_error_In; eassumption.
  - intros a.
    destruct (is_nan (Candidate.distance_km a)) eqn:Na.
    + assert (N : forall b, same_rank a b = false).
      { intros b. unfold same_rank.
        destruct (Candidate.distance_km a =? Candidate.distance_km b)%float eqn:E;
          [|reflexivity].
        apply FloatOrder.eqb_not_nan_l in E. unfold not_nan in E.
        congruence. }
      rewrite !filter_none; auto.
    + assert (Ha : measured a) by exact Na.
      rewrite <- (filter_ext_in (tied shelter_key key_lt a)).
      * rewrite <- (filter_ext_in (tied shelter_key key_lt a) (same_rank a)
                      (survivors platform models request)).
        -- apply (sorted_stable _ _ shelter_key key_lt measured); auto.
           ++ intros x z. apply KeyOrder.key_lt_asym.
           ++ intros x z c. apply KeyOrder.key_lt_negtrans.
        -- intros b Hb. apply tied_same_rank; [assumption|].
           rewrite Forall_forall in Hm. now apply Hm.
      * intros b Hb. apply tied_same_rank; [assumption|].
        rewrite Forall_forall in Hrm. now apply Hrm.
  - rewrite get_evacuation_route_eq. fold rank.
    destruct rank as [|first rest] eqn:E.
    + exfalso. apply Hne. now apply (sorted_nil_iff _ _ shelter_key key_lt).
    + eexists. split; [reflexivity|]. simpl. now split.
Qed.

(** On the test deployment, where three shelters survive. *)
Lemma plan_ranking_witness :
  Permutation (ranked Demo.platform Demo.models Demo.evacuation)
    (survivors Demo.platform Demo.models Demo.evacuation)
  /\ closer_then_larger (ranked Demo.platform Demo.models Demo.evacuation)
  /\ ties_in_order_of (survivors Demo.platform Demo.models Demo.evacuation)
       (ranked Demo.platform Demo.models Demo.evacuation)
  /\ exists plan,
       get_evacuation_route Demo.platform Demo.models Demo.evacuation Demo.world
       = (Return plan, Demo.world)
       /\ nth_error (ranked Demo.platform Demo.models Demo.evacuation) 0
          = Some (EvacuationPlan.recommended_shelter plan)
       /\ EvacuationPlan.alternative_shelters plan
          = firstn 3 (skipn 1 (ranked Demo.platform Demo.models Demo.evacuation)).
Proof.
  apply (plan_ranking Demo.platform Demo.models Demo.evacuation Demo.world).
  vm_compute. discriminate.
Defined.

(** C5. The planner fails exactly when no shelter of the dataset lies
    strictly outside the disaster radius; the failure is the 404
    "no safe shelters" condition, it is the only failure there is, and it
    carries no recommendation: a plan is returned exactly when some
    shelter passes the filter. *)
Theorem no_safe_shelter_iff platform models request w :
  let none_safe :=
    Forall (fun s =>
        (EvacuationRequest.disaster_radius request
         <? distance_to platform request s)%float = false)
      (shelters models) in
  (get_evacuation_route platform models request w
   = (Raise (HTTPException 404 "No safe shelters found within parameters"), w)
   <-> none_safe)
  /\ (forall e, fst (get_evacuation_route platform models request w) = Raise e ->
        e = HTTPException 404 "No safe shelters found within parameters")
  /\ ((exists plan, get_evacuation_route platform models request w = (Return plan, w))
      <-> ~ none_safe).
Proof.
  intros none_safe. rewrite get_evacuation_route_eq.
  pose proof (survivors_nil platform models request) as Hn. fold none_safe in Hn.
  pose proof (sorted_nil_iff _ _ shelter_key key_lt
                (survivors platform models request)) as Hr.
  fold (ranked platform models request) in Hr.
  destruct (ranked platform models request) as [|first rest].
  - assert (N : none_safe) by (apply Hn, Hr; reflexivity).
    split; [tauto|]. split.
    + simpl. intros e H. now injection H as <-.
    + split; [intros [plan H]; discriminate|tauto].
  - assert (N : ~ none_safe).
    { intros N. apply Hn, Hr in N. discriminate. }
    split; [split; [discriminate|tauto]|]. split.
    + simpl. discriminate.
    + split; [tauto|]. intros _. eexists. reflexivity.
Qed.

(** C8. The plan is a function of the request and the reference data
    alone: the clock, the random generator and the calls made before do
    not reach it, and planning leaves the world as it found it.  Two
    identical requests in succession get identical answers. *)
Theorem evacuation_deterministic platform models request w1 w2 :
  fst (get_evacuation_route platform models request w1)
  = fst (get_evacuation_route platform models request w2)
  /\ snd (get_evacuation_route platform models request w1) = w1
  /\ fst (get_evacuation_route platform models request
            (snd (get_evacuation_route platform models request w1)))
     = fst (get_evacuation_route platform models request w1).
Proof.
  rewrite !get_evacuation_route_eq.
  destruct (ranked platform models request); simpl;
    rewrite ?get_evacuation_route_eq; repeat split.
Qed.

(** Not so for a prediction: the features of the sequence model are
    drawn from the generator, and the same request is answered
    differently once a sample has been drawn. *)
Example prediction_reads_the_generator :
  fst (predict_disaster Demo.platform Demo.seismic_models
         (PredictionRequest.mk Demo.philadelphia "earthquake" 1) (mkWorld 0 0 []))
  = Return (RiskSeries "earthquake" [("739924"%string, 0.25%float)] "probability")
  /\ fst (predict_disaster Demo.platform Demo.seismic_models
            (PredictionRequest.mk Demo.philadelphia "earthquake" 1) (mkWorld 0 1 []))
     = Return (RiskSeries "earthquake" [("739924"%string, 0.5%float)] "probability").
Proof. split; vm_compute; reflexivity. Qed.

(** C10. The disaster-type tag of an evacuation request has no part in
    the planning: two requests that differ in the tag alone fail alike
    or get the same recommended shelter and the same alternates, each
    with its own tag echoed unchanged. *)
Theorem evacuation_ignores_tag platform models start radius tag1 tag2 w :
  match get_evacuation_route platform models (EvacuationRequest.mk start tag1 radius) w,
        get_evacuation_route platform models (EvacuationRequest.mk start tag2 radius) w
  with
  | (Return p1, _), (Return p2, _) =>
      EvacuationPlan.recommended_shelter p1 = EvacuationPlan.recommended_shelter p2
      /\ EvacuationPlan.alternative_shelters p1 = EvacuationPlan.alternative_shelters p2
      /\ EvacuationPlan.disaster_type p1 = tag1
      /\ EvacuationPlan.disaster_type p2 = tag2
  | (Raise e1, _), (Raise e2, _) => e1 = e2
  | _, _ => False
  end.
Proof.
  rewrite !get_evacuation_route_eq.
  change (ranked platform models (EvacuationRequest.mk start tag2 radius))
    with (ranked platform models (EvacuationRequest.mk start tag1 radius)).
  destruct (ranked platform models (EvacuationRequest.mk start tag1 radius));
    simpl; repeat split.
Qed.

(** ** The monad *)

Lemma bind_eq {A B} (c : M A) (k : A -> M B) w :
  bind c k w
  = match c w with
    | (Return a, w') => k a w'
    | (Raise e, w') => (Raise e, w')
    end.
Proof. reflexivity. Qed.

(** ** The date sequence of a prediction request *)
Section Dates.
Variable platform : Platform.

Lemma date_step_eq i w :
  date_step platform i w
  = (match date_at platform (clock_reads w) i with
     | Some d => Return d
     | None => Raise OverflowError
     end,
     mkWorld (S (clock_reads w)) (rng_draws w) (trace w)).
Proof.
  unfold date_step, date_at, bind, datetime_now, timedelta_days, datetime_add.
  destruct (Z.abs i <=? 999999999)%Z; simpl; [|reflexivity].
  destruct ((1 <=? toordinal (now platform (clock_reads w)) + i)
            && (toordinal (now platform (clock_reads w)) + i <=? MAXORDINAL))%Z;
    reflexivity.
Qed.

Lemma build_dates len : forall i w,
  exists w',
    mapM (date_step platform) (range_from i len) w
    = (match dates_from platform (clock_reads w) i len with
       | Some ds => Return ds
       | None => Raise OverflowError
       end, w')
    /\ rng_draws w' = rng_draws w
    /\ trace w' = trace w
    /\ (dates_from platform (clock_reads w) i len <> None ->
        clock_reads w' = (clock_reads w + len)%nat).
Proof.
  induction len as [|len IH]; intros i w.
  - exists w. simpl. repeat split. intros _. lia.
  - cbn [range_from mapM dates_from]. rewrite bind_eq, date_step_eq.
    destruct (date_at platform (clock_reads w) i) as [d|].
    + destruct (IH (i + 1)%Z (mkWorld (S (clock_reads w)) (rng_draws w) (trace w)))
        as (w' & E & E1 & E2 & E3).
      cbn [clock_reads rng_draws trace] in *.
      rewrite bind_eq, E. exists w'.
      destruct (dates_from platform (S (clock_reads w)) (i + 1) len) as [ds|]; simpl.
      * repeat split; try assumption. intros _.
        rewrite E3 by discriminate. lia.
      * repeat split; try assumption. congruence.
    + eexists. split; [reflexivity|]. simpl. repeat split. congruence.
Qed.

Lemma dates_from_some len : forall k i,
  (forall j, (j < len)%nat -> date_at platform (k + j) (i + Z.of_nat j) <> None) ->
  exists ds, dates_from platform k i len = Some ds
    /\ length ds = len
    /\ forall j, (j < len)%nat ->
         nth_error ds j = date_at platform (k + j) (i + Z.of_nat j).
Proof.
  induction len as [|len IH]; intros k i H.
  - exists []. repeat split. intros j Hj. lia.
  - cbn [dates_from].
    pose proof (H O ltac:(lia)) as H0.
    rewrite Nat.add_0_r, Z.add_0_r in H0.
    destruct (date_at platform k i) as [d|] eqn:E; [|congruence].
    destruct (IH (S k) (i + 1)%Z) as (ds & E1 & E2 & E3).
    { intros j Hj. specialize (H (S j) ltac:(lia)).
      replace (S k + j)%nat with (k + S j)%nat by lia.
      replace (i + 1 + Z.of_nat j)%Z with (i + Z.of_nat (S j))%Z by lia.
      assumption. }
    exists (d :: ds). rewrite E1. repeat split.
    + simpl. now rewrite E2.
    + intros [|j] Hj.
      * simpl. now rewrite Nat.add_0_r, Z.add_0_r.
      * simpl nth_error. rewrite E3 by lia.
        replace (S k + j)%nat with (k + S j)%nat by lia.
        now replace (i + 1 + Z.of_nat j)%Z with (i + Z.of_nat (S j))%Z by lia.
Qed.

Lemma dates_from_none len : forall k i j,
  (j < len)%nat -> date_at platform (k + j) (i + Z.of_nat j) = None ->
  dates_from platform k i len = None.
Proof.
  induction len as [|len IH]; intros k i j Hj H; [lia|].
  cbn [dates_from]. destruct (date_at platform k i) as [d|] eqn:E; [|reflexivity].
  destruct j as [|j].
  - rewrite Nat.add_0_r, Z.add_0_r in H. congruence.
  - rewrite (IH (S k) (i + 1)%Z j); [reflexivity|lia|].
    replace (S k + j)%nat with (k + S j)%nat by lia.
    now replace (i + 1 + Z.of_nat j)%Z with (i + Z.of_nat (S j))%Z by lia.
Qed.

Lemma window_fits_date_at w n j :
  window_fits platform w n -> (j < Z.to_nat n)%nat ->
  date_at platform (clock_reads w + j) (0 + Z.of_nat j)
  = Some (mkDatetime (toordinal (now platform (clock_reads w + j)) + Z.of_nat j)
            (microsecond_of_day (now platform (clock_reads w + j)))).
Proof.
  intros H Hj. destruct (H (Z.of_nat j) ltac:(lia)) as [H1 H2].
  rewrite Nat2Z.id in H1. unfold date_at. rewrite Z.add_0_l.
  replace (Z.abs (Z.of_nat j) <=? 999999999)%Z with true
    by (symmetry; apply Z.leb_le; lia).
  replace (1 <=? toordinal (now platform (clock_reads w + j)) + Z.of_nat j)%Z
    with true by (symmetry; apply Z.leb_le; lia).
  replace (toordinal (now platform (clock_reads w + j)) + Z.of_nat j <=? MAXORDINAL)%Z
    with true by (symmetry; apply Z.leb_le; lia).
  reflexivity.
Qed.

(** A window that fits is built, one date per day, from as many
    readings of the clock; nothing else of the world is touched. *)
Lemma dates_built w n :
  window_fits platform w n ->
  exists ds,
    mapM (date_step platform) (range n) w
    = (Return ds, mkWorld (clock_reads w + Z.to_nat n) (rng_draws w) (trace w))
    /\ length ds = Z.to_nat n
    /\ forall j, (j < Z.to_nat n)%nat ->
         nth_error ds j
         = Some (mkDatetime (toordinal (now platform (clock_reads w + j)) + Z.of_nat j)
                   (microsecond_of_day (now platform (clock_reads w + j)))).
Proof.
  intros H. unfold range.
  destruct (dates_from_some (Z.to_nat n) (clock_reads w) 0) as (ds & E1 & E2 & E3).
  { intros j Hj. now rewrite (window_fits_date_at w n j H Hj). }
  exists ds. destruct (build_dates (Z.to_nat n) 0 w) as (w' & B1 & B2 & B3 & B4).
  rewrite E1 in B1, B4. specialize (B4 ltac:(discriminate)).
  destruct w' as [c r t]. cbn [clock_reads rng_draws trace] in *. subst.
  repeat split; try assumption.
  intros j Hj. rewrite E3 by assumption. exact (window_fits_date_at w n j H Hj).
Qed.

(** A window with a day past the calendar is not built: the request
    ends in [OverflowError] with no sample drawn and no call made. *)
Lemma dates_overflow w n j :
  (0 <= j < n)%Z ->
  date_at platform (clock_reads w + Z.to_nat j) j = None ->
  exists w', mapM (date_step platform) (range n) w = (Raise OverflowError, w')
    /\ rng_draws w' = rng_draws w /\ trace w' = trace w.
Proof.
  intros Hj H. unfold range.
  destruct (build_dates (Z.to_nat n) 0 w) as (w' & B1 & B2 & B3 & _).
  rewrite (dates_from_none (Z.to_nat n) (clock_reads w) 0 (Z.to_nat j)) in B1.
  - exists w'. repeat split; assumption.
  - lia.
  - rewrite Z.add_0_l, Z2Nat.id by lia. assumption.
Qed.

End Dates.

(** ** Risk prediction *)
Section Prediction.
Variable platform : Platform.
Variable models : DisasterModels.

Lemma feature_row_eq location date w :
  feature_row platform location date w
  = (Return (row_of platform location date (rng_draws w)),
     mkWorld (clock_reads w) (S (S (rng_draws w))) (trace w)).
Proof. reflexivity. Qed.

Lemma feature_rows location dates : forall w,
  exists rows,
    mapM (feature_row platform location) dates w = (Return rows, drawn w (2 * length dates))
    /\ length rows = length dates.
Proof.
  induction dates as [|d dates IH]; intros w.
  - exists []. unfold drawn. simpl. rewrite Nat.add_0_r. now destruct w.
  - cbn [mapM]. rewrite bind_eq, feature_row_eq.
    destruct (IH (mkWorld (clock_reads w) (S (S (rng_draws w))) (trace w)))
      as (rows & E & L).
    rewrite bind_eq, E. eexists. split.
    + unfold ret, drawn. cbn [clock_reads rng_draws trace length]. do 2 f_equal. lia.
    + simpl. now rewrite L.
Qed.

Lemma prepare_earthquake_features_eq location dates w :
  exists rows,
    prepare_earthquake_features platform location dates w
    = (Return [rows], drawn w (2 * length dates))
    /\ length rows = length dates.
Proof.
  destruct (feature_rows location dates w) as (rows & E & L).
  exists rows. split; [|assumption].
  unfold prepare_earthquake_features.
  change (mapM _ dates) with (mapM (feature_row platform location) dates).
  now rewrite bind_eq, E.
Qed.

(** The sequence predictor: one row of features per date goes to the
    model as a single batch, and the first batch of its answer comes back. *)
Lemma predict_earthquake_eq location dates w :
  exists rows,
    length rows = length dates
    /\ predict_earthquake platform models location dates w
       = (match earthquake_model models [rows] with
          | Some (out :: _) => Return out
          | Some [] => Raise IndexError
          | None => Raise InferenceError
          end,
          called (drawn w (2 * length dates)) (EarthquakePredict [rows])).
Proof.
  destruct (prepare_earthquake_features_eq location dates w) as (rows & E & L).
  exists rows. split; [assumption|].
  unfold predict_earthquake. rewrite bind_eq, E, bind_eq. unfold call, called.
  destruct (earthquake_model models [rows]) as [[|out rest]|]; reflexivity.
Qed.

(** The point classifier: risk 0 when no region holds the point, and
    otherwise the positive-class probability of the first such region. *)
Lemma predict_flood_eq location w :
  let point := mkPoint (lon location) (lat location) in
  predict_flood platform models location w
  = match filter (fun r => contains platform (polygon r) point) (regions models) with
    | [] => (Return 0%float, called w (RegionLookup (lon location) (lat location)))
    | r0 :: _ =>
        let features := [[elevation r0; river_dist r0; soil_moisture r0]] in
        (match flood_model models features with
         | Some ((_ :: p :: _) :: _) => Return p
         | Some _ => Raise IndexError
         | None => Raise InferenceError
         end,
         called (called w (RegionLookup (lon location) (lat location)))
           (FloodPredictProba features))
    end.
Proof.
  intros point. unfold predict_flood. rewrite bind_eq. unfold call at 1.
  fold point. cbn [x y point].
  destruct (filter (fun r => contains platform (polygon r) point) (regions models))
    as [|r0 rest]; [reflexivity|].
  rewrite bind_eq. unfold call, called. cbn [clock_reads rng_draws trace].
  destruct (flood_model models [[elevation r0; river_dist r0; soil_moisture r0]])
    as [[|[|p0 [|p1 row]] proba]|]; reflexivity.
Qed.

(** The endpoint, read off its steps: the dates first, then the dispatch
    on the tag. *)
Lemma predict_disaster_eq request w :
  predict_disaster platform models request w
  = match mapM (date_step platform) (range (PredictionRequest.time_window request)) w with
    | (Return dates, w1) =>
        if String.eqb (PredictionRequest.disaster_type request) "earthquake" then
          match predict_earthquake platform models
                  (PredictionRequest.location request) dates w1 with
          | (Return risks, w2) =>
              (Return (RiskSeries "earthquake"
                         (dict (zip (map (isoformat platform) dates) risks))
                         "probability"), w2)
          | (Raise e, w2) => (Raise e, w2)
          end
        else if String.eqb (PredictionRequest.disaster_type request) "flood" then
          match predict_flood platform models (PredictionRequest.location request) w1 with
          | (Return risk, w2) => (Return (RiskScalar "flood" risk "probability"), w2)
          | (Raise e, w2) => (Raise e, w2)
          end
        else (Raise (HTTPException 400 "Disaster type not supported"), w1)
    | (Raise e, w1) => (Raise e, w1)
    end.
Proof.
  unfold predict_disaster. rewrite bind_eq.
  change (mapM _ (range (PredictionRequest.time_window request)))
    with (mapM (date_step platform) (range (PredictionRequest.time_window request))).
  destruct (mapM (date_step platform) (range (PredictionRequest.time_window request)) w)
    as [[dates|e] w1]; [|reflexivity].
  destruct (String.eqb (PredictionRequest.disaster_type request) "earthquake");
    [reflexivity|].
  destruct (String.eqb (PredictionRequest.disaster_type request) "flood");
    reflexivity.
Qed.

(** A tag the dispatch has no branch for is answered with the 400
    condition once the dates are built; only the clock has been read. *)
Lemma rejected_when_not_dispatched request w :
  String.eqb (PredictionRequest.disaster_type request) "earthquake" = false ->
  String.eqb (PredictionRequest.disaster_type request) "flood" = false ->
  window_fits platform w (PredictionRequest.time_window request) ->
  predict_disaster platform models request w
  = (Raise (HTTPException 400 "Disaster type not supported"),
     mkWorld (clock_reads w + Z.to_nat (PredictionRequest.time_window request))
       (rng_draws w) (trace w)).
Proof.
  intros He Hf Hw. rewrite predict_disaster_eq.
  destruct (dates_built platform w _ Hw) as (ds & E & _).
  now rewrite E, He, Hf.
Qed.

(** The branches of the dispatch never answer with an HTTP error. *)
Lemma dispatched_never_rejected request w s d :
  PredictionRequest.disaster_type request = "earthquake"%string
  \/ PredictionRequest.disaster_type request = "flood"%string ->
  fst (predict_disaster platform models request w) <> Raise (HTTPException s d).
Proof.
  intros Htag. rewrite predict_disaster_eq. unfold range.
  destruct (build_dates platform (Z.to_nat (PredictionRequest.time_window request)) 0 w)
    as (w1 & E & _).
  rewrite E.
  destruct (dates_from platform (clock_reads w) 0
              (Z.to_nat (PredictionRequest.time_window request))) as [dates|];
    [|discriminate].
  destruct Htag as [-> | ->]; cbn [String.eqb Ascii.eqb Bool.eqb].
  - destruct (predict_earthquake_eq (PredictionRequest.location request) dates w1)
      as (rows & _ & ->).
    destruct (earthquake_model models [rows]) as [[|out rest]|]; discriminate.
  - rewrite predict_flood_eq.
    destruct (filter _ (regions models)) as [|r0 rest]; [discriminate|].
    cbn zeta.
    destruct (flood_model models [[elevation r0; river_dist r0; soil_moisture r0]])
      as [[|[|p0 [|p1 row]] proba]|]; discriminate.
Qed.

End Prediction.

(** ** [zip] and [dict] *)

Lemma zip_length {A B} (xs : list A) : forall ys : list B,
  length xs = length ys -> length (zip xs ys) = length xs.
Proof.
  induction xs as [|x xs IH]; intros [|y ys] H; simpl in *; try lia.
  now rewrite IH by lia.
Qed.

Lemma zip_keys {A B} (xs : list A) : forall ys : list B,
  length xs = length ys -> map fst (zip xs ys) = xs.
Proof.
  induction xs as [|x xs IH]; intros [|y ys] H; simpl in *; try lia; [reflexivity|].
  now rewrite IH by lia.
Qed.

Lemma zip_nil_l {A B} (ys : list B) : zip (@nil A) ys = [].
Proof. reflexivity. Qed.

Lemma dict_set_fresh {V} (d : list (string * V)) k v :
  ~ In k (map fst d) -> dict_set d k v = d ++ [(k, v)].
Proof.
  induction d as [|[k' v'] d IH]; intros H; simpl; [reflexivity|].
  simpl in H. destruct (String.eqb_spec k' k) as [E|E]; [tauto|].
  rewrite IH by tauto. reflexivity.
Qed.

Lemma fold_dict_set {V} (l : list (string * V)) : forall acc,
  NoDup (map fst (acc ++ l)) ->
  fold_left (fun d kv => dict_set d (fst kv) (snd kv)) l acc = acc ++ l.
Proof.
  induction l as [|[k v] l IH]; intros acc H; simpl.
  - now rewrite app_nil_r.
  - rewrite dict_set_fresh.
    + rewrite IH; rewrite <- app_assoc; [reflexivity|assumption].
    + rewrite map_app in H. simpl in H. apply NoDup_remove_2 in H.
      intros Hin. apply H. apply in_or_app. now left.
Qed.

(** Pairs with distinct keys make the dictionary they list. *)
Lemma dict_distinct {V} (l : list (string * V)) :
  NoDup (map fst l) -> dict l = l.
Proof. intros H. unfold dict. now rewrite fold_dict_set. Qed.

Lemma days_apart_keys platform dates today :
  renders_days_apart platform ->
  (forall j, (j < length dates)%nat ->
     exists d, nth_error dates j = Some d /\ toordinal d = (today + Z.of_nat j)%Z) ->
  NoDup (map (isoformat platform) dates).
Proof.
  intros Hr Hd. apply NoDup_nth_error. intros i j Hi E.
  rewrite length_map in Hi. rewrite !nth_error_map in E.
  destruct (Hd i Hi) as (di & Ei & Oi). rewrite Ei in E. simpl in E.
  destruct (Nat.lt_ge_cases j (length dates)) as [Hj|Hj].
  - destruct (Hd j Hj) as (dj & Ej & Oj). rewrite Ej in E. simpl in E.
    injection E as E.
    destruct (Z.eq_dec (toordinal di) (toordinal dj)) as [O|O]; [lia|].
    now apply Hr in O.
  - apply nth_error_None in Hj. rewrite Hj in E. discriminate.
Qed.

(** ** The test deployment *)

Lemma demo_window_fits w n :
  (n <= 2912136)%Z -> window_fits Demo.platform w n.
Proof.
  intros Hn j Hj.
  change (now Demo.platform (clock_reads w + Z.to_nat j)) with Demo.today.
  cbv [Demo.today toordinal MAXORDINAL]. lia.
Qed.

Lemma demo_renders_days_apart : renders_days_apart Demo.platform.
Proof.
  intros d1 d2 H E. apply H. simpl in E. unfold Demo.render_day in E.
  apply DecimalZ.to_int_inj.
  pose proof (DecimalString.NilEmpty.isi (Z.to_int (toordinal d1))) as I1.
  pose proof (DecimalString.NilEmpty.isi (Z.to_int (toordinal d2))) as I2.
  rewrite E in I1. congruence.
Qed.

Lemma demo_one_risk_per_day : one_risk_per_day (earthquake_model Demo.models).
Proof.
  intros rows. exists (map (fun _ => 0.25%float) rows), []. split; [reflexivity|].
  apply length_map.
Qed.

Lemma demo_long_window_overflows location tag :
  exists w', predict_disaster Demo.platform Demo.models
               (PredictionRequest.mk location tag 3000000) Demo.world
             = (Raise OverflowError, w')
    /\ rng_draws w' = 0%nat /\ trace w' = [].
Proof.
  rewrite predict_disaster_eq. cbn [PredictionRequest.time_window].
  destruct (dates_overflow Demo.platform Demo.world 3000000 2999999)
    as (w' & E & R & T).
  - lia.
  - unfold date_at.
    change (now Demo.platform (clock_reads Demo.world + Z.to_nat 2999999))
      with Demo.today.
    reflexivity.
  - exists w'. rewrite E. repeat split; assumption.
Qed.

(** ** The [/predict] endpoint *)

(** C1 (the code departs from the claim). Of the four disaster types a
    request may name, wildfire and hurricane get no risk result: as soon
    as the dates of the window are built the endpoint answers the
    request with the 400 "not supported" condition, without a sample
    drawn or a model consulted. *)
Theorem wildfire_and_hurricane_rejected platform models location n w tag :
  window_fits platform w n ->
  In tag DISASTER_TYPES ->
  tag <> "earthquake"%string -> tag <> "flood"%string ->
  (tag = "wildfire"%string \/ tag = "hurricane"%string)
  /\ predict_disaster platform models (PredictionRequest.mk location tag n) w
     = (Raise (HTTPException 400 "Disaster type not supported"),
        mkWorld (clock_reads w + Z.to_nat n) (rng_draws w) (trace w)).
Proof.
  intros Hw Hin He Hf. split.
  - simpl in Hin. destruct Hin as [H|[H|[H|[H|[]]]]]; subst; tauto.
  - apply rejected_when_not_dispatched; [| |assumption];
      cbn [PredictionRequest.disaster_type]; now apply String.eqb_neq.
Qed.

(** On the test deployment: a wildfire request over a week. *)
Lemma wildfire_and_hurricane_rejected_witness :
  ("wildfire"%string = "wildfire"%string \/ "wildfire"%string = "hurricane"%string)
  /\ predict_disaster Demo.platform Demo.models
       (PredictionRequest.mk Demo.philadelphia "wildfire" 7) Demo.world
     = (Raise (HTTPException 400 "Disaster type not supported"),
        mkWorld (clock_reads Demo.world + Z.to_nat 7) (rng_draws Demo.world)
          (trace Demo.world)).
Proof.
  apply (wildfire_and_hurricane_rejected Demo.platform Demo.models
           Demo.philadelphia 7 Demo.world "wildfire").
  - apply demo_window_fits. lia.
  - simpl. tauto.
  - discriminate.
  - discriminate.
Defined.

(** C2, amended. When every day of the requested window is a date of
    the calendar, a request whose tag is outside the four disaster types
    fails with the 400 "not supported" condition, and an earthquake or a
    flood request never fails with an HTTP condition.  On that failure
    the clock has been read once per day of the window and nothing else
    has happened: no sample drawn, no model or region index consulted. *)
Theorem unsupported_type_fails_fast platform models request w :
  window_fits platform w (PredictionRequest.time_window request) ->
  (~ In (PredictionRequest.disaster_type request) DISASTER_TYPES ->
   predict_disaster platform models request w
   = (Raise (HTTPException 400 "Disaster type not supported"),
      mkWorld (clock_reads w + Z.to_nat (PredictionRequest.time_window request))
        (rng_draws w) (trace w)))
  /\ (PredictionRequest.disaster_type request = "earthquake"%string
      \/ PredictionRequest.disaster_type request = "flood"%string ->
      forall s d,
        fst (predict_disaster platform models request w) <> Raise (HTTPException s d)).
Proof.
  intros Hw. split.
  - intros Hout. apply rejected_when_not_dispatched; [| |assumption];
      apply String.eqb_neq; intros E; apply Hout; rewrite E; simpl; tauto.
  - intros Htag s d. now apply dispatched_never_rejected.
Qed.

(** On the test deployment: a tsunami request over a week. *)
Lemma unsupported_type_fails_fast_witness :
  predict_disaster Demo.platform Demo.models
    (PredictionRequest.mk Demo.philadelphia "tsunami" 7) Demo.world
  = (Raise (HTTPException 400 "Disaster type not supported"), mkWorld 7 0 []).
Proof.
  refine (proj1 (unsupported_type_fails_fast Demo.platform Demo.models
                   (PredictionRequest.mk Demo.philadelphia "tsunami" 7)
                   Demo.world _) _).
  - apply demo_window_fits. simpl. lia.
  - simpl. intros [H|[H|[H|[H|[]]]]]; discriminate.
Defined.

(** The claim C2 as stated fails: a request for an unknown disaster type
    over a window of three million days ends in [OverflowError] while
    its dates are built, before its tag is looked at. *)
Lemma tsunami_long_window_overflows :
  ~ In "tsunami"%string DISASTER_TYPES
  /\ fst (predict_disaster Demo.platform Demo.models
            (PredictionRequest.mk Demo.philadelphia "tsunami" 3000000) Demo.world)
     = Raise OverflowError.
Proof.
  split.
  - simpl. intros [H|[H|[H|[H|[]]]]]; discriminate.
  - destruct (demo_long_window_overflows Demo.philadelphia "tsunami")
      as (w' & E & _).
    rewrite E. reflexivity.
Qed.

(** C6. A flood prediction for a location that no region contains is
    exactly 0: the classifier returns it without consulting the flood
    model, and the endpoint reports it as the risk whenever the dates of
    the window are built. *)
Theorem flood_outside_regions platform models location w :
  (forall r, In r (regions models) ->
     contains platform (polygon r) (mkPoint (lon location) (lat location)) = false) ->
  predict_flood platform models location w
  = (Return 0%float, called w (RegionLookup (lon location) (lat location)))
  /\ forall n, window_fits platform w n ->
       exists w',
         predict_disaster platform models (PredictionRequest.mk location "flood" n) w
         = (Return (RiskScalar "flood" 0%float "probability"), w').
Proof.
  intros Hout.
  assert (F : forall w0, predict_flood platform models location w0
              = (Return 0%float, called w0 (RegionLookup (lon location) (lat location)))).
  { intros w0. rewrite predict_flood_eq. cbn zeta.
    rewrite filter_none; [reflexivity|assumption]. }
  split; [apply F|].
  intros n Hw. rewrite predict_disaster_eq.
  destruct (dates_built platform w n Hw) as (ds & E & _).
  cbn [PredictionRequest.time_window PredictionRequest.disaster_type
       PredictionRequest.location].
  rewrite E. cbn [String.eqb Ascii.eqb Bool.eqb]. rewrite F. eexists. reflexivity.
Qed.

(** On the test deployment: a location outside its only region. *)
Lemma flood_outside_regions_witness :
  predict_flood Demo.platform Demo.models Demo.sahara Demo.world
  = (Return 0%float,
     called Demo.world (RegionLookup (lon Demo.sahara) (lat Demo.sahara)))
  /\ forall n, window_fits Demo.platform Demo.world n ->
       exists w',
         predict_disaster Demo.platform Demo.models
           (PredictionRequest.mk Demo.sahara "flood" n) Demo.world
         = (Return (RiskScalar "flood" 0%float "probability"), w').
Proof.
  apply (flood_outside_regions Demo.platform Demo.models Demo.sahara Demo.world).
  intros r [<-|[]]. vm_compute. reflexivity.
Defined.

(** C7, amended. An earthquake request over a window of [n >= 1] days
    that ends no later than 9999-12-31 gets a series of exactly [n]
    entries, the [j]-th keyed by the rendering of the day [j] days from
    today, so one per consecutive day from today on in ascending order:
    provided the clock stays on today while the dates are read, days
    apart are rendered apart, and the model returns one risk per day. *)
Theorem earthquake_series_covers_window platform models location n w today :
  (1 <= n)%Z ->
  (forall j, (j < Z.to_nat n)%nat ->
     toordinal (now platform (clock_reads w + j)) = today) ->
  (1 <= today)%Z -> (today + n - 1 <= MAXORDINAL)%Z ->
  renders_days_apart platform ->
  one_risk_per_day (earthquake_model models) ->
  exists dates out w',
    predict_disaster platform models
      (PredictionRequest.mk location "earthquake" n) w
    = (Return (RiskSeries "earthquake"
                 (zip (map (isoformat platform) dates) out) "probability"), w')
    /\ Z.of_nat (length (zip (map (isoformat platform) dates) out)) = n
    /\ length dates = Z.to_nat n
    /\ length out = Z.to_nat n
    /\ forall j, (j < Z.to_nat n)%nat ->
         exists d, nth_error dates j = Some d
                   /\ toordinal d = (today + Z.of_nat j)%Z.
Proof.
  intros Hn Hday Ht Hmax Hiso Hmodel.
  assert (Hw : window_fits platform w n).
  { intros j Hj. rewrite (Hday (Z.to_nat j)) by lia. unfold MAXORDINAL in *. lia. }
  destruct (dates_built platform w n Hw) as (ds & E & L & Hnth).
  assert (Hds : forall j, (j < Z.to_nat n)%nat ->
            exists d, nth_error ds j = Some d
                      /\ toordinal d = (today + Z.of_nat j)%Z).
  { intros j Hj. eexists. split; [apply Hnth, Hj|].
    simpl. now rewrite (Hday j Hj). }
  destruct (predict_earthquake_eq platform models location ds
              (mkWorld (clock_reads w + Z.to_nat n) (rng_draws w) (trace w)))
    as (rows & Lr & Ep).
  destruct (Hmodel rows) as (out & rest & Em & Lo).
  rewrite Em in Ep.
  assert (Lk : length (map (isoformat platform) ds) = length out).
  { rewrite length_map. congruence. }
  exists ds, out. eexists. split; [|repeat split].
  - rewrite predict_disaster_eq.
    cbn [PredictionRequest.time_window PredictionRequest.disaster_type
         PredictionRequest.location].
    rewrite E. cbn [String.eqb Ascii.eqb Bool.eqb]. rewrite Ep.
    rewrite dict_distinct; [reflexivity|].
    rewrite (zip_keys _ _ Lk).
    apply (days_apart_keys platform ds today Hiso).
    rewrite L. exact Hds.
  - rewrite (zip_length _ _ Lk), length_map, L. lia.
  - exact L.
  - congruence.
  - exact Hds.
Qed.

(** On the test deployment: an earthquake request over three days. *)
Lemma earthquake_series_covers_window_witness :
  exists dates out w',
    predict_disaster Demo.platform Demo.models
      (PredictionRequest.mk Demo.philadelphia "earthquake" 3) Demo.world
    = (Return (RiskSeries "earthquake"
                 (zip (map (isoformat Demo.platform) dates) out) "probability"), w')
    /\ Z.of_nat (length (zip (map (isoformat Demo.platform) dates) out)) = 3%Z
    /\ length dates = Z.to_nat 3
    /\ length out = Z.to_nat 3
    /\ forall j, (j < Z.to_nat 3)%nat ->
         exists d, nth_error dates j = Some d
                   /\ toordinal d = (739924 + Z.of_nat j)%Z.
Proof.
  apply (earthquake_series_covers_window Demo.platform Demo.models
           Demo.philadelphia 3 Demo.world 739924).
  - lia.
  - intros j _. reflexivity.
  - lia.
  - unfold MAXORDINAL. lia.
  - exact demo_renders_days_apart.
  - exact demo_one_risk_per_day.
Defined.

(** The claim C7 as stated fails: an earthquake request over a window of
    three million days gets no series; it ends in [OverflowError] when
    the dates pass the year 9999. *)
Lemma earthquake_long_window_overflows :
  (1 <= 3000000)%Z
  /\ one_risk_per_day (earthquake_model Demo.models)
  /\ fst (predict_disaster Demo.platform Demo.models
            (PredictionRequest.mk Demo.philadelphia "earthquake" 3000000) Demo.world)
     = Raise OverflowError.
Proof.
  split; [lia|]. split; [exact demo_one_risk_per_day|].
  destruct (demo_long_window_overflows Demo.philadelphia "earthquake")
    as (w' & E & _).
  rewrite E. reflexivity.
Qed.

(** C9, amended. A window of zero or fewer days is not refused: for an
    earthquake request the date sequence is empty, the clock is not read
    and no sample is drawn, and the earthquake model is consulted once,
    on the batch with no row.  What the request comes to is then up to
    the model: the risks of the response are empty when it answers with
    a sequence, whatever that sequence holds, and the request ends in
    the model's own failure when the call fails, and in [IndexError] when
    it answers with no sequence.  No HTTP condition is raised. *)
Theorem empty_window_reaches_the_model platform models request w :
  PredictionRequest.disaster_type request = "earthquake"%string ->
  (PredictionRequest.time_window request <= 0)%Z ->
  mapM (date_step platform) (range (PredictionRequest.time_window request)) w
  = (Return [], w)
  /\ predict_disaster platform models request w
     = (match earthquake_model models [[]] with
        | Some (out :: _) => Return (RiskSeries "earthquake" [] "probability")
        | Some [] => Raise IndexError
        | None => Raise InferenceError
        end,
        called w (EarthquakePredict [[]]))
  /\ (forall s d,
        fst (predict_disaster platform models request w) <> Raise (HTTPException s d)).
Proof.
  intros Htag Hn.
  assert (R : range (PredictionRequest.time_window request) = []).
  { unfold range. now replace (Z.to_nat (PredictionRequest.time_window request))
      with O by lia. }
  split; [now rewrite R|]. split.
  - rewrite predict_disaster_eq, R, Htag.
    cbn [mapM ret String.eqb Ascii.eqb Bool.eqb].
    destruct (predict_earthquake_eq platform models
                (PredictionRequest.location request) [] w) as (rows & Lr & Ep).
    destruct rows; [|discriminate]. rewrite Ep.
    assert (W : called (drawn w (2 * length (@nil datetime))) (EarthquakePredict [[]])
                = called w (EarthquakePredict [[]])).
    { unfold drawn, called. cbn [length Nat.mul clock_reads rng_draws trace].
      now rewrite Nat.add_0_r. }
    rewrite W.
    destruct (earthquake_model models [[]]) as [[|out rest]|]; reflexivity.
  - intros s d. apply dispatched_never_rejected. now left.
Qed.

(** On the test deployment, whose model answers the empty batch with an
    empty sequence: an earthquake request over no day. *)
Lemma empty_window_reaches_the_model_witness :
  mapM (date_step Demo.platform) (range 0) Demo.world = (Return [], Demo.world)
  /\ predict_disaster Demo.platform Demo.models
       (PredictionRequest.mk Demo.philadelphia "earthquake" 0) Demo.world
     = (Return (RiskSeries "earthquake" [] "probability"),
        called Demo.world (EarthquakePredict [[]]))
  /\ (forall s d,
        fst (predict_disaster Demo.platform Demo.models
               (PredictionRequest.mk Demo.philadelphia "earthquake" 0) Demo.world)
        <> Raise (HTTPException s d)).
Proof.
  apply (empty_window_reaches_the_model Demo.platform Demo.models
           (PredictionRequest.mk Demo.philadelphia "earthquake" 0) Demo.world).
  - reflexivity.
  - simpl. lia.
Defined.

(** The claim C9 as stated fails: with a sequence model that refuses a
    batch without time steps, an earthquake request over no day, or over
    minus five, is not answered with an empty mapping; it ends in the
    failure of the model. *)
Lemma empty_window_model_failure :
  fst (predict_disaster Demo.platform Drill.strict_models
         (PredictionRequest.mk Demo.philadelphia "earthquake" 0) Demo.world)
  = Raise InferenceError
  /\ fst (predict_disaster Demo.platform Drill.strict_models
            (PredictionRequest.mk Demo.philadelphia "earthquake" (-5)) Demo.world)
     = Raise InferenceError.
Proof. split; vm_compute; reflexivity. Qed.

(** ** The numbers of a risk result *)






(** * Further properties of the service *)

(** ** More on the order of binary64 numbers *)

Lemma leb_ltb_trans x y z :
  (x <=? y)%float = true -> (y <? z)%float = true -> (x <? z)%float = true.
Proof.
  rewrite FloatAxioms.leb_spec, !FloatAxioms.ltb_spec. unfold SFleb, SFltb.
  destruct (SFcompare (Prim2SF x) (Prim2SF y)) as [[]|] eqn:Exy; try discriminate;
    intros _ Hyz.
  - now rewrite (FloatOrder.SFcompare_eq_l _ _ _ Exy).
  - destruct (SFcompare (Prim2SF y) (Prim2SF z)) as [[]|] eqn:Eyz; try discriminate.
    now rewrite (FloatOrder.SFcompare_trans _ _ _ _ Exy Eyz).
Qed.

Lemma ltb_of_nan x y : is_nan x = true -> (x <? y)%float = false.
Proof.
  intros N. destruct (x <? y)%float eqn:E; [|reflexivity].
  apply FloatOrder.ltb_not_nan_l in E. unfold not_nan in E. congruence.
Qed.

(** ** More on evacuation planning *)

Lemma ranked_sorted platform models request :
  StronglySorted (precedes shelter_key key_lt) (ranked platform models request).
Proof.
  apply (sorted_sorted _ _ shelter_key key_lt measured).
  - intros a b. apply KeyOrder.key_lt_asym.
  - intros a b c. apply KeyOrder.key_lt_negtrans.
  - apply survivors_measured.
Qed.

Lemma ranked_measured platform models request :
  Forall measured (ranked platform models request).
Proof.
  apply (Permutation_Forall (Permutation_sym (sorted_perm _ _ _ _ _))).
  apply survivors_measured.
Qed.

Lemma precedes_ranks_before a b :
  measured a -> measured b ->
  precedes shelter_key key_lt a b -> ranks_before a b.
Proof.
  intros Ha Hb P.
  apply (KeyOrder.key_lt_false (shelter_key b) (shelter_key a) Hb Ha) in P.
  simpl in P. destruct P as [L|[E C]]; [now left|right].
  rewrite FloatOrder.eqb_sym. split; [assumption|lia].
Qed.

Lemma in_skipn {A} n (l : list A) a : In a (skipn n l) -> In a l.
Proof.
  intros H. rewrite <- (firstn_skipn n l). apply in_or_app. now right.
Qed.

Lemma StronglySorted_split {A} (R : A -> A -> Prop) l n a b :
  StronglySorted R l -> In a (firstn n l) -> In b (skipn n l) -> R a b.
Proof.
  intros Hs. revert n. induction Hs as [|x l Hs IH Hx]; intros n Ha Hb.
  - rewrite firstn_nil in Ha. destruct Ha.
  - destruct n as [|n]; [destruct Ha|]. simpl in Ha, Hb.
    destruct Ha as [<-|Ha].
    + rewrite Forall_forall in Hx. apply Hx. now apply (in_skipn n).
    + now apply (IH n).
Qed.

(** A plan names the recommended shelter and at most three alternates,
    as many as the survivors allow, and it names the best of them: a
    survivor left out of the plan is no closer than any shelter of the
    plan, and no larger when it is as far. *)
Theorem plan_keeps_the_best platform models request w plan w' :
  get_evacuation_route platform models request w = (Return plan, w') ->
  length (EvacuationPlan.alternative_shelters plan)
  = Nat.min 3 (length (survivors platform models request) - 1)
  /\ forall chosen other,
       In chosen (plan_shelters plan) ->
       In other (survivors platform models request) ->
       ~ In other (plan_shelters plan) ->
       ranks_before chosen other.
Proof.
  rewrite get_evacuation_route_eq.
  pose proof (ranked_sorted platform models request) as Hs.
  pose proof (ranked_measured platform models request) as Hm.
  pose proof (sorted_perm _ _ shelter_key key_lt
                (survivors platform models request)) as Hp.
  fold (ranked platform models request) in Hp.
  destruct (ranked platform models request) as [|first rest] eqn:E;
    [discriminate|].
  intros H. injection H as <- _. unfold plan_shelters.
  cbn [EvacuationPlan.alternative_shelters EvacuationPlan.recommended_shelter].
  split.
  - change (length (firstn 3 rest)
            = Nat.min 3 (length (survivors platform models request) - 1)).
    rewrite length_firstn, <- (Permutation_length Hp). cbn [length]. lia.
  - intros chosen other Hc Ho Hout.
    assert (Hc4 : In chosen (firstn 4 (first :: rest))) by exact Hc.
    assert (Ho4 : In other (skipn 4 (first :: rest))).
    { apply (Permutation_in _ (Permutation_sym Hp)) in Ho.
      rewrite <- (firstn_skipn 4 (first :: rest)) in Ho.
      apply in_app_or in Ho. destruct Ho as [Ho|Ho]; [|assumption].
      exfalso. apply Hout. exact Ho. }
    rewrite Forall_forall in Hm.
    apply precedes_ranks_before.
    + apply Hm. now apply (in_firstn 4).
    + apply Hm. now apply (in_skipn 4).
    + exact (StronglySorted_split _ _ 4 _ _ Hs Hc4 Ho4).
Qed.

(** On the test deployment: S2, S5 and S4 are the three survivors. *)
Lemma plan_keeps_the_best_witness :
  length (EvacuationPlan.alternative_shelters Demo.plan)
  = Nat.min 3 (length (survivors Demo.platform Demo.models Demo.evacuation) - 1)
  /\ forall chosen other,
       In chosen (plan_shelters Demo.plan) ->
       In other (survivors Demo.platform Demo.models Demo.evacuation) ->
       ~ In other (plan_shelters Demo.plan) ->
       ranks_before chosen other.
Proof.
  apply (plan_keeps_the_best Demo.platform Demo.models Demo.evacuation
           Demo.world Demo.plan Demo.world).
  vm_compute. reflexivity.
Defined.

(** Widening the danger zone never brings a shelter in: the survivors
    of the wider zone are survivors of the narrower one, so a request
    that fails with no safe shelter keeps failing for every larger
    radius, and a plan for the larger radius means a plan for the smaller. *)
Theorem wider_zone_fewer_survivors platform models start tag1 tag2 r1 r2 w :
  (r1 <=? r2)%float = true ->
  incl (survivors platform models (EvacuationRequest.mk start tag2 r2))
       (survivors platform models (EvacuationRequest.mk start tag1 r1))
  /\ ((exists plan,
         get_evacuation_route platform models (EvacuationRequest.mk start tag2 r2) w
         = (Return plan, w)) ->
      exists plan,
        get_evacuation_route platform models (EvacuationRequest.mk start tag1 r1) w
        = (Return plan, w)).
Proof.
  intros Hr.
  assert (I : incl (survivors platform models (EvacuationRequest.mk start tag2 r2))
                   (survivors platform models (EvacuationRequest.mk start tag1 r1))).
  { intros c Hc. apply in_survivors in Hc. destruct Hc as (S & s & Hs & ->).
    apply in_survivors. split; [|now exists s].
    unfold safe in *. simpl in *. exact (leb_ltb_trans _ _ _ Hr S). }
  split; [exact I|].
  intros [plan H]. rewrite get_evacuation_route_eq in H.
  rewrite get_evacuation_route_eq.
  destruct (ranked platform models (EvacuationRequest.mk start tag2 r2))
    as [|c2 rest2] eqn:E2; [discriminate|].
  assert (Hc2 : In c2 (survivors platform models (EvacuationRequest.mk start tag1 r1))).
  { apply I, in_ranked. rewrite E2. now left. }
  apply in_ranked in Hc2.
  destruct (ranked platform models (EvacuationRequest.mk start tag1 r1))
    as [|c1 rest1]; [destruct Hc2|].
  eexists. reflexivity.
Qed.

(** On the test deployment: the zones of 10 km and of 50 km. *)
Lemma wider_zone_fewer_survivors_witness :
  incl (survivors Demo.platform Demo.models Demo.evacuation)
       (survivors Demo.platform Demo.models Drill.narrow)
  /\ ((exists plan,
         get_evacuation_route Demo.platform Demo.models Demo.evacuation Demo.world
         = (Return plan, Demo.world)) ->
      exists plan,
        get_evacuation_route Demo.platform Demo.models Drill.narrow Demo.world
        = (Return plan, Demo.world)).
Proof.
  apply (wider_zone_fewer_survivors Demo.platform Demo.models Demo.philadelphia
           "flood" "flood" 10%float 50%float Demo.world).
  vm_compute. reflexivity.
Defined.

(** A radius that is not a number finds no shelter: whatever the
    dataset, the request fails with the 404 condition. *)
Theorem undefined_radius_finds_nothing platform models request w :
  is_nan (EvacuationRequest.disaster_radius request) = true ->
  get_evacuation_route platform models request w
  = (Raise (HTTPException 404 "No safe shelters found within parameters"), w).
Proof.
  intros N. rewrite get_evacuation_route_eq.
  assert (E : ranked platform models request = []).
  { apply (sorted_nil_iff _ _ shelter_key key_lt), survivors_nil.
    apply Forall_forall. intros s _. now apply ltb_of_nan. }
  now rewrite E.
Qed.

(** On the test deployment, which has shelters at every distance. *)
Lemma undefined_radius_finds_nothing_witness :
  get_evacuation_route Demo.platform Demo.models Drill.undefined_radius Demo.world
  = (Raise (HTTPException 404 "No safe shelters found within parameters"),
     Demo.world).
Proof.
  apply (undefined_radius_finds_nothing Demo.platform Demo.models
           Drill.undefined_radius Demo.world).
  vm_compute. reflexivity.
Defined.

Lemma filter_perm {A} (f : A -> bool) l l' :
  Permutation l l' -> Permutation (filter f l) (filter f l').
Proof.
  induction 1 as [|x l l' _ IH|x y l|l l' l'' _ IH1 _ IH2]; simpl.
  - constructor.
  - destruct (f x); [now constructor|assumption].
  - destruct (f x), (f y); try apply Permutation_refl. apply perm_swap.
  - now apply perm_trans with (filter f l').
Qed.

(** Two sorted arrangements of the same elements are the same list when
    no two different elements are tied. *)
Lemma sorted_unique {A} (R : A -> A -> Prop) l1 : forall l2,
  StronglySorted R l1 -> StronglySorted R l2 -> Permutation l1 l2 ->
  (forall a b, In a l1 -> In b l1 -> R a b -> R b a -> a = b) ->
  l1 = l2.
Proof.
  induction l1 as [|a l1 IH]; intros l2 H1 H2 P Has.
  - apply Permutation_nil in P. now subst.
  - destruct l2 as [|b l2].
    { apply Permutation_sym, Permutation_nil in P. discriminate. }
    inversion H1 as [|? ? H1' F1]; subst. inversion H2 as [|? ? H2' F2]; subst.
    rewrite Forall_forall in F1, F2.
    assert (E : a = b).
    { assert (Ia : In a (b :: l2)) by (apply (Permutation_in _ P); now left).
      assert (Ib : In b (a :: l1))
        by (apply (Permutation_in _ (Permutation_sym P)); now left).
      destruct Ia as [->|Ia]; [reflexivity|].
      destruct Ib as [->|Ib]; [reflexivity|].
      apply Has; [now left|now right|now apply F1|now apply F2]. }
    subst b. f_equal. apply IH; try assumption.
    + now apply Permutation_cons_inv with a.
    + intros x z Hx Hz. apply Has; now right.
Qed.

(** The order in which the dataset lists its shelters shows in a plan
    only through ties: when no two different survivors have the same
    distance and the same capacity, any rearrangement of the dataset
    gets the same answer. *)
Theorem plan_ignores_dataset_order platform models data request w :
  Permutation data (shelters models) ->
  (forall a b,
     In a (survivors platform models request) ->
     In b (survivors platform models request) ->
     same_rank a b = true -> a = b) ->
  get_evacuation_route platform (with_shelters models data) request w
  = get_evacuation_route platform models request w.
Proof.
  intros P Hties. rewrite !get_evacuation_route_eq.
  assert (Ps : Permutation (survivors platform (with_shelters models data) request)
                           (survivors platform models request)).
  { unfold survivors. apply filter_perm. simpl. now apply Permutation_map. }
  assert (Pr : Permutation (ranked platform (with_shelters models data) request)
                           (ranked platform models request)).
  { unfold ranked.
    apply perm_trans with (survivors platform (with_shelters models data) request);
      [apply sorted_perm|].
    apply perm_trans with (survivors platform models request);
      [assumption|apply Permutation_sym, sorted_perm]. }
  rewrite (sorted_unique (precedes shelter_key key_lt)
             (ranked platform (with_shelters models data) request)
             (ranked platform models request)); try assumption.
  - reflexivity.
  - apply ranked_sorted.
  - apply ranked_sorted.
  - intros a b Ha Hb Pab Pba.
    pose proof (ranked_measured platform (with_shelters models data) request) as Hm.
    rewrite Forall_forall in Hm.
    apply Hties.
    + apply (Permutation_in _ Ps), in_ranked, Ha.
    + apply (Permutation_in _ Ps), in_ranked, Hb.
    + rewrite <- tied_same_rank by (apply Hm; assumption).
      unfold tied, precedes in *. now rewrite Pab, Pba.
Qed.

(** On the test deployment: three shelters at three distances, listed
    forwards and backwards. *)
Lemma plan_ignores_dataset_order_witness :
  get_evacuation_route Demo.platform
    (with_shelters (with_shelters Demo.models Drill.spread) Drill.spread_backwards)
    Drill.narrow Demo.world
  = get_evacuation_route Demo.platform (with_shelters Demo.models Drill.spread)
      Drill.narrow Demo.world.
Proof.
  apply (plan_ignores_dataset_order Demo.platform
           (with_shelters Demo.models Drill.spread) Drill.spread_backwards
           Drill.narrow Demo.world).
  - apply Permutation_sym, Permutation_rev.
  - intros a b Ha Hb.
    vm_compute in Ha, Hb.
    destruct Ha as [<-|[<-|[<-|[]]]]; destruct Hb as [<-|[<-|[<-|[]]]];
      vm_compute; intros H; try reflexivity; discriminate H.
Defined.

(** ** More on risk prediction *)

Lemma feature_rows_nth platform location dates : forall w,
  exists rows,
    mapM (feature_row platform location) dates w
    = (Return rows, drawn w (2 * length dates))
    /\ length rows = length dates
    /\ forall j date, nth_error dates j = Some date ->
         nth_error rows j
         = Some (row_of platform location date (rng_draws w + 2 * j)).
Proof.
  induction dates as [|d dates IH]; intros w.
  - exists []. unfold drawn. simpl. rewrite Nat.add_0_r. destruct w.
    repeat split. intros [|j] date H; discriminate.
  - cbn [mapM]. rewrite bind_eq, feature_row_eq.
    destruct (IH (mkWorld (clock_reads w) (S (S (rng_draws w))) (trace w)))
      as (rows & E & L & N).
    rewrite bind_eq, E. eexists. split; [|split].
    + unfold ret, drawn. cbn [clock_reads rng_draws trace length]. do 2 f_equal. lia.
    + simpl. now rewrite L.
    + intros [|j] date H; simpl in H |- *.
      * injection H as <-. now rewrite Nat.add_0_r.
      * rewrite (N j date H). cbn [rng_draws]. do 2 f_equal. lia.
Qed.

(** The features of the sequence model are a single batch with one row
    per date and five numbers per row: the location, the day of the
    year, and two samples of the generator, which are taken in order,
    two for each date.  Building them cannot fail, and it neither reads
    the clock nor consults a model. *)
Theorem feature_batch_shape platform location dates w :
  exists rows,
    prepare_earthquake_features platform location dates w
    = (Return [rows], drawn w (2 * length dates))
    /\ length rows = length dates
    /\ Forall (fun row => length row = 5%nat) rows
    /\ forall j date, nth_error dates j = Some date ->
         nth_error rows j
         = Some (row_of platform location date (rng_draws w + 2 * j)).
Proof.
  destruct (feature_rows_nth platform location dates w) as (rows & E & L & N).
  exists rows. split; [|split; [assumption|split; [|assumption]]].
  - unfold prepare_earthquake_features.
    change (mapM _ dates) with (mapM (feature_row platform location) dates).
    now rewrite bind_eq, E.
  - apply Forall_forall. intros row Hrow.
    apply In_nth_error in Hrow. destruct Hrow as [j Hj].
    assert (Hlt : (j < length dates)%nat).
    { rewrite <- L. apply nth_error_Some. congruence. }
    destruct (nth_error dates j) as [date|] eqn:Ed.
    + rewrite (N j date Ed) in Hj. injection Hj as <-. reflexivity.
    + apply nth_error_None in Ed. lia.
Qed.

(** An earthquake request over a window that fits the calendar reads the
    clock once per day, draws two samples per day and consults the
    earthquake model exactly once, on a batch with one row per day,
    whether the model answers or not; no other model and no region is
    consulted. *)
Theorem earthquake_request_footprint platform models location n w :
  window_fits platform w n ->
  exists rows,
    length rows = Z.to_nat n
    /\ snd (predict_disaster platform models
              (PredictionRequest.mk location "earthquake" n) w)
       = mkWorld (clock_reads w + Z.to_nat n) (rng_draws w + 2 * Z.to_nat n)
           (trace w ++ [EarthquakePredict [rows]]).
Proof.
  intros Hw. destruct (dates_built platform w n Hw) as (ds & E & L & _).
  destruct (predict_earthquake_eq platform models location ds
              (mkWorld (clock_reads w + Z.to_nat n) (rng_draws w) (trace w)))
    as (rows & Lr & Ep).
  exists rows. split; [congruence|].
  rewrite predict_disaster_eq.
  cbn [PredictionRequest.time_window PredictionRequest.disaster_type
       PredictionRequest.location].
  rewrite E. cbn [String.eqb Ascii.eqb Bool.eqb]. rewrite Ep, L.
  destruct (earthquake_model models [rows]) as [[|out rest]|]; reflexivity.
Qed.

(** On the test deployment: three days, six samples, one call. *)
Lemma earthquake_request_footprint_witness :
  exists rows,
    length rows = Z.to_nat 3
    /\ snd (predict_disaster Demo.platform Demo.models
              (PredictionRequest.mk Demo.philadelphia "earthquake" 3) Demo.world)
       = mkWorld (clock_reads Demo.world + Z.to_nat 3)
           (rng_draws Demo.world + 2 * Z.to_nat 3)
           (trace Demo.world ++ [EarthquakePredict [rows]]).
Proof.
  apply (earthquake_request_footprint Demo.platform Demo.models
           Demo.philadelphia 3 Demo.world).
  apply demo_window_fits. lia.
Defined.

Lemma filter_first {A} (f : A -> bool) before r after :
  (forall r', In r' before -> f r' = false) -> f r = true ->
  filter f (before ++ r :: after) = r :: filter f after.
Proof.
  intros Hb Hr. rewrite filter_app, (filter_none _ f before Hb). simpl.
  now rewrite Hr.
Qed.

(** When several regions contain the point, the first of them in the
    order of the dataset decides: the flood model is asked about its
    elevation, river distance and soil moisture, the regions after it
    play no part, and the risk is the second number of the model's first
    row, with [IndexError] when that row is missing or shorter. *)
Theorem flood_uses_first_region platform models location w before r after :
  regions models = before ++ r :: after ->
  (forall r', In r' before ->
     contains platform (polygon r') (mkPoint (lon location) (lat location)) = false) ->
  contains platform (polygon r) (mkPoint (lon location) (lat location)) = true ->
  predict_flood platform models location w
  = (match flood_model models [[elevation r; river_dist r; soil_moisture r]] with
     | Some ((_ :: p :: _) :: _) => Return p
     | Some _ => Raise IndexError
     | None => Raise InferenceError
     end,
     called (called w (RegionLookup (lon location) (lat location)))
       (FloodPredictProba [[elevation r; river_dist r; soil_moisture r]])).
Proof.
  intros Hregs Hb Hr. rewrite predict_flood_eq. cbn zeta. rewrite Hregs.
  rewrite (filter_first _ before r after Hb Hr). reflexivity.
Qed.

(** On the test deployment with two regions over the location: the
    terrain of the first one goes to the model. *)
Lemma flood_uses_first_region_witness :
  predict_flood Demo.platform Drill.overlapping_models Demo.philadelphia Demo.world
  = (Return 0.75%float,
     mkWorld 0 0
       [RegionLookup (-75)%float 40%float;
        FloodPredictProba [[3%float; 1%float; 0.75%float]]]).
Proof.
  refine (flood_uses_first_region Demo.platform Drill.overlapping_models
            Demo.philadelphia Demo.world []
            (mkRegion [mkPoint (-75.5)%float 39.5%float;
                       mkPoint (-74.5)%float 40.5%float]
               3%float 1%float 0.75%float)
            [mkRegion [mkPoint (-76)%float 39%float; mkPoint (-74)%float 41%float]
               12%float 3%float 0.5%float] _ _ _).
  - reflexivity.
  - intros r' [].
  - vm_compute. reflexivity.
Defined.

Lemma predict_flood_outcome platform models location w1 w2 :
  fst (predict_flood platform models location w1)
  = fst (predict_flood platform models location w2).
Proof.
  rewrite !predict_flood_eq. cbn zeta.
  destruct (filter _ (regions models)) as [|r0 rest]; reflexivity.
Qed.

(** A flood risk depends on the location alone: for windows that fit
    the calendar, the length of the window, the time of the request and
    the state of the generator make no difference to the answer. *)
Theorem flood_depends_on_location_only platform models location n1 n2 w1 w2 :
  window_fits platform w1 n1 -> window_fits platform w2 n2 ->
  fst (predict_disaster platform models
         (PredictionRequest.mk location "flood" n1) w1)
  = fst (predict_disaster platform models
           (PredictionRequest.mk location "flood" n2) w2).
Proof.
  intros H1 H2. rewrite !predict_disaster_eq.
  destruct (dates_built platform w1 n1 H1) as (ds1 & E1 & _).
  destruct (dates_built platform w2 n2 H2) as (ds2 & E2 & _).
  cbn [PredictionRequest.time_window PredictionRequest.disaster_type
       PredictionRequest.location].
  rewrite E1, E2. cbn [String.eqb Ascii.eqb Bool.eqb].
  pose proof (predict_flood_outcome platform models location
                (mkWorld (clock_reads w1 + Z.to_nat n1) (rng_draws w1) (trace w1))
                (mkWorld (clock_reads w2 + Z.to_nat n2) (rng_draws w2) (trace w2)))
    as F.
  destruct (predict_flood platform models location
              (mkWorld (clock_reads w1 + Z.to_nat n1) (rng_draws w1) (trace w1)))
    as [o1 v1].
  destruct (predict_flood platform models location
              (mkWorld (clock_reads w2 + Z.to_nat n2) (rng_draws w2) (trace w2)))
    as [o2 v2].
  simpl in F. subst o2. destruct o1; reflexivity.
Qed.

(** On the test deployment: a day and a month, before and after other
    requests. *)
Lemma flood_depends_on_location_only_witness :
  fst (predict_disaster Demo.platform Demo.models
         (PredictionRequest.mk Demo.philadelphia "flood" 1) Demo.world)
  = fst (predict_disaster Demo.platform Demo.models
           (PredictionRequest.mk Demo.philadelphia "flood" 30) (mkWorld 5 9 [])).
Proof.
  apply (flood_depends_on_location_only Demo.platform Demo.models
           Demo.philadelphia 1 30 Demo.world (mkWorld 5 9 []));
    apply demo_window_fits; lia.
Defined.

(** A window with a day past 9999-12-31 is refused whatever the
    disaster type: the request ends in [OverflowError] while its dates
    are built, before a sample is drawn or a model consulted. *)
Theorem window_past_calendar_overflows platform models request w j :
  (0 <= j < PredictionRequest.time_window request)%Z ->
  (MAXORDINAL < toordinal (now platform (clock_reads w + Z.to_nat j)) + j)%Z ->
  exists w',
    predict_disaster platform models request w = (Raise OverflowError, w')
    /\ rng_draws w' = rng_draws w /\ trace w' = trace w.
Proof.
  intros Hj Hmax. rewrite predict_disaster_eq.
  destruct (dates_overflow platform w (PredictionRequest.time_window request) j Hj)
    as (w' & E & R & T).
  - unfold date_at.
    replace (toordinal (now platform (clock_reads w + Z.to_nat j)) + j <=? MAXORDINAL)%Z
      with false by (symmetry; apply Z.leb_gt; lia).
    now rewrite !andb_false_r.
  - exists w'. rewrite E. repeat split; assumption.
Qed.

(** On the test deployment: three million days from 2026-11-04. *)
Lemma window_past_calendar_overflows_witness :
  exists w',
    predict_disaster Demo.platform Demo.models
      (PredictionRequest.mk Demo.sahara "flood" 3000000) Demo.world
    = (Raise OverflowError, w')
    /\ rng_draws w' = rng_draws Demo.world /\ trace w' = trace Demo.world.
Proof.
  apply (window_past_calendar_overflows Demo.platform Demo.models
           (PredictionRequest.mk Demo.sahara "flood" 3000000) Demo.world 2999999).
  - cbn [PredictionRequest.time_window]. lia.
  - change (now Demo.platform (clock_reads Demo.world + Z.to_nat 2999999))
      with Demo.today.
    cbv [Demo.today toordinal MAXORDINAL]. lia.
Defined.

Lemma zip_length_min {A B} (xs : list A) : forall ys : list B,
  length (zip xs ys) = Nat.min (length xs) (length ys).
Proof.
  induction xs as [|x xs IH]; intros [|y ys]; simpl; try reflexivity.
  now rewrite IH.
Qed.

Lemma zip_keys_firstn {A B} (xs : list A) : forall ys : list B,
  map fst (zip xs ys) = firstn (length ys) xs.
Proof.
  induction xs as [|x xs IH]; intros [|y ys]; simpl; try reflexivity.
  now rewrite IH.
Qed.

Lemma NoDup_firstn {A} n (l : list A) : NoDup l -> NoDup (firstn n l).
Proof.
  intros H. rewrite <- (firstn_skipn n l) in H.
  now apply NoDup_app_remove_r in H.
Qed.

(** The series of an earthquake request has as many entries as the
    shorter of the window and the model's answer: a model that answers
    with [m] risks gives the first [m] days of the window their risks
    and leaves the later days out, and what it answers beyond the window
    is dropped; no error is raised for the mismatch. *)
Theorem earthquake_series_truncates platform models location n w today m :
  (forall j, (j < Z.to_nat n)%nat ->
     toordinal (now platform (clock_reads w + j)) = today) ->
  (1 <= today)%Z -> (today + n - 1 <= MAXORDINAL)%Z ->
  renders_days_apart platform ->
  sequence_of_length m (earthquake_model models) ->
  exists dates out w',
    predict_disaster platform models
      (PredictionRequest.mk location "earthquake" n) w
    = (Return (RiskSeries "earthquake"
                 (zip (map (isoformat platform) dates) out) "probability"), w')
    /\ length (zip (map (isoformat platform) dates) out) = Nat.min (Z.to_nat n) m
    /\ length dates = Z.to_nat n
    /\ length out = m
    /\ forall j, (j < Z.to_nat n)%nat ->
         exists d, nth_error dates j = Some d
                   /\ toordinal d = (today + Z.of_nat j)%Z.
Proof.
  intros Hday Ht Hmax Hiso Hmodel.
  assert (Hw : window_fits platform w n).
  { intros j Hj. rewrite (Hday (Z.to_nat j)) by lia. unfold MAXORDINAL in *. lia. }
  destruct (dates_built platform w n Hw) as (ds & E & L & Hnth).
  assert (Hds : forall j, (j < Z.to_nat n)%nat ->
            exists d, nth_error ds j = Some d
                      /\ toordinal d = (today + Z.of_nat j)%Z).
  { intros j Hj. eexists. split; [apply Hnth, Hj|].
    simpl. now rewrite (Hday j Hj). }
  destruct (predict_earthquake_eq platform models location ds
              (mkWorld (clock_reads w + Z.to_nat n) (rng_draws w) (trace w)))
    as (rows & Lr & Ep).
  destruct (Hmodel rows) as (out & rest & Em & Lo).
  rewrite Em in Ep.
  exists ds, out. eexists. split; [|repeat split].
  - rewrite predict_disaster_eq.
    cbn [PredictionRequest.time_window PredictionRequest.disaster_type
         PredictionRequest.location].
    rewrite E. cbn [String.eqb Ascii.eqb Bool.eqb]. rewrite Ep.
    rewrite dict_distinct; [reflexivity|].
    rewrite zip_keys_firstn. apply NoDup_firstn.
    apply (days_apart_keys platform ds today Hiso).
    rewrite L. exact Hds.
  - rewrite zip_length_min, length_map. congruence.
  - exact L.
  - exact Lo.
  - exact Hds.
Qed.

(** On the test deployment with a model that answers one risk: a window
    of three days gets a series of one entry. *)
Lemma earthquake_series_truncates_witness :
  exists dates out w',
    predict_disaster Demo.platform Drill.last_step_models
      (PredictionRequest.mk Demo.philadelphia "earthquake" 3) Demo.world
    = (Return (RiskSeries "earthquake"
                 (zip (map (isoformat Demo.platform) dates) out) "probability"), w')
    /\ length (zip (map (isoformat Demo.platform) dates) out)
       = Nat.min (Z.to_nat 3) 1
    /\ length dates = Z.to_nat 3
    /\ length out = 1%nat
    /\ forall j, (j < Z.to_nat 3)%nat ->
         exists d, nth_error dates j = Some d
                   /\ toordinal d = (739924 + Z.of_nat j)%Z.
Proof.
  apply (earthquake_series_truncates Demo.platform Drill.last_step_models
           Demo.philadelphia 3 Demo.world 739924 1).
  - intros j _. reflexivity.
  - lia.
  - unfold MAXORDINAL. lia.
  - exact demo_renders_days_apart.
  - intros rows. exists [0.25%float], []. split; reflexivity.
Defined.

(** ** The alerts endpoint *)
Section AlertsFacts.
Variable platform : Platform.
Variable feeds : Alerts.Feeds.

Lemma alerts_bind_eq {X Y} (c : Alerts.N X) (k : X -> Alerts.N Y) w :
  Alerts.bind c k w
  = match c w with
    | (Alerts.Ok x, w') => k x w'
    | (Alerts.Err e, w') => (Alerts.Err e, w')
    end.
Proof. reflexivity. Qed.

(** The earthquake feed is asked once, and what is kept of its answer
    is its [features], or the empty list when it has none. *)
Lemma fetch_earthquakes_eq w :
  has_yesterday platform (Alerts.clock w) ->
  Alerts.fetch_earthquakes platform feeds 1 w
  = (match Alerts.respond feeds (length (Alerts.sent w))
             (usgs_request platform (Alerts.clock w)) with
     | Some (Alerts.JObj items) =>
         Alerts.Ok (match Alerts.assoc "features" items with
                    | Some x => x
                    | None => Alerts.JArr []
                    end)
     | Some _ => Alerts.Err Alerts.AttributeError
     | None => Alerts.Err Alerts.ClientError
     end,
     Alerts.mkNet (S (Alerts.clock w))
       (Alerts.sent w ++ [usgs_request platform (Alerts.clock w)])).
Proof.
  intros [H1 H2]. unfold Alerts.fetch_earthquakes.
  rewrite alerts_bind_eq. unfold Alerts.read_clock at 1.
  rewrite alerts_bind_eq. unfold Alerts.days_before at 1.
  change (Z.abs 1 <=? 999999999)%Z with true. cbv iota zeta.
  replace (1 <=? toordinal (now platform (Alerts.clock w)) - 1)%Z with true
    by (symmetry; apply Z.leb_le; assumption).
  replace (toordinal (now platform (Alerts.clock w)) - 1 <=? MAXORDINAL)%Z with true
    by (symmetry; apply Z.leb_le; assumption).
  cbn [andb Alerts.ret]. rewrite alerts_bind_eq.
  unfold Alerts.http_get at 1. cbn [Alerts.clock Alerts.sent].
  fold (usgs_request platform (Alerts.clock w)).
  destruct (Alerts.respond feeds (length (Alerts.sent w))
              (usgs_request platform (Alerts.clock w))) as [data|]; [|reflexivity].
  destruct data as [| | | | | |items]; try reflexivity.
  cbn [Alerts.get_or_empty]. now destruct (Alerts.assoc "features" items).
Qed.

Lemma fetch_weather_alerts_eq w :
  Alerts.fetch_weather_alerts feeds w
  = (match Alerts.respond feeds (length (Alerts.sent w)) noaa_request with
     | Some (Alerts.JObj items) =>
         Alerts.Ok (match Alerts.assoc "features" items with
                    | Some x => x
                    | None => Alerts.JArr []
                    end)
     | Some _ => Alerts.Err Alerts.AttributeError
     | None => Alerts.Err Alerts.ClientError
     end,
     Alerts.mkNet (Alerts.clock w) (Alerts.sent w ++ [noaa_request])).
Proof.
  unfold Alerts.fetch_weather_alerts. rewrite alerts_bind_eq.
  unfold Alerts.http_get at 1. fold noaa_request.
  destruct (Alerts.respond feeds (length (Alerts.sent w)) noaa_request)
    as [data|]; [|reflexivity].
  destruct data as [| | | | | |items]; try reflexivity.
  cbn [Alerts.get_or_empty]. now destruct (Alerts.assoc "features" items).
Qed.

Lemma earthquake_entry_reports e entry w :
  reports_quake platform feeds e entry ->
  Alerts.earthquake_entry platform feeds e w = (Alerts.Ok entry, w).
Proof.
  intros (mag & lon & lat & ms & seconds & d & F & Hq & Hd & ->).
  destruct F as (items & props & geom & coords & -> & Hp & Hm & Ht & Hg & Hc & H0 & H1).
  unfold Alerts.earthquake_entry, Alerts.bind, Alerts.getitem, Alerts.getitem_at,
    Alerts.per_thousand, Alerts.ret.
  rewrite Hp, Hm, Hg, Hc, H1, H0, Ht, Hq, Hd. reflexivity.
Qed.

Lemma weather_entry_reports a entry w :
  reports_alert a entry ->
  Alerts.weather_entry a w = (Alerts.Ok entry, w).
Proof.
  intros (items & props & ev & sev & ar & -> & Hp & He & Hs & Ha & ->).
  unfold Alerts.weather_entry, Alerts.bind, Alerts.getitem, Alerts.ret.
  rewrite Hp, He, Hs, Ha. reflexivity.
Qed.

Lemma each_reports {X Y} (f : X -> Alerts.N Y) (R : X -> Y -> Prop) xs ys w :
  (forall x y, R x y -> f x w = (Alerts.Ok y, w)) ->
  Forall2 R xs ys -> Alerts.each f xs w = (Alerts.Ok ys, w).
Proof.
  intros Hf H. induction H as [|x y xs ys Hxy _ IH]; [reflexivity|].
  cbn [Alerts.each]. rewrite alerts_bind_eq, (Hf x y Hxy), alerts_bind_eq, IH.
  reflexivity.
Qed.

Lemma each_fails_at {X Y} (f : X -> Alerts.N Y) (R : X -> Y -> Prop)
  good ys bad rest e w :
  (forall x y, R x y -> f x w = (Alerts.Ok y, w)) ->
  Forall2 R good ys -> f bad w = (Alerts.Err e, w) ->
  Alerts.each f (good ++ bad :: rest) w = (Alerts.Err e, w).
Proof.
  intros Hf H Hbad. induction H as [|x y xs ys' Hxy _ IH]; simpl.
  - now rewrite alerts_bind_eq, Hbad.
  - now rewrite alerts_bind_eq, (Hf x y Hxy), alerts_bind_eq, IH.
Qed.

Lemma each_pure {X Y} (f : X -> Alerts.N Y) l :
  (forall x w, snd (f x w) = w) -> forall w, snd (Alerts.each f l w) = w.
Proof.
  intros Hf. induction l as [|x l IH]; intros w; [reflexivity|].
  cbn [Alerts.each]. rewrite alerts_bind_eq.
  specialize (Hf x w). destruct (f x w) as [[y|e] w1]; simpl in Hf; subst w1;
    [|reflexivity].
  rewrite alerts_bind_eq. specialize (IH w).
  destruct (Alerts.each f l w) as [[ys|e] w1]; simpl in IH; now subst w1.
Qed.

Ltac pure_steps :=
  repeat match goal with
  | |- context [match ?x with _ => _ end] => destruct x; try reflexivity
  end.

Lemma getitem_pure v k w : snd (Alerts.getitem v k w) = w.
Proof. unfold Alerts.getitem, Alerts.ret, Alerts.raise. pure_steps. Qed.

Lemma getitem_at_pure v i w : snd (Alerts.getitem_at v i w) = w.
Proof. unfold Alerts.getitem_at, Alerts.ret, Alerts.raise. pure_steps. Qed.

Lemma per_thousand_pure v w : snd (Alerts.per_thousand feeds v w) = w.
Proof. unfold Alerts.per_thousand, Alerts.ret, Alerts.raise. pure_steps. Qed.

Lemma iterate_pure v w : snd (Alerts.iterate v w) = w.
Proof. unfold Alerts.iterate, Alerts.ret, Alerts.raise. pure_steps. Qed.

Ltac step_pure :=
  rewrite alerts_bind_eq;
  match goal with
  | |- context [match Alerts.getitem ?v ?k ?w with _ => _ end] =>
      let P := fresh "P" in
      pose proof (getitem_pure v k w) as P;
      destruct (Alerts.getitem v k w) as [[?|?] ?]; simpl in P; subst
  | |- context [match Alerts.getitem_at ?v ?i ?w with _ => _ end] =>
      let P := fresh "P" in
      pose proof (getitem_at_pure v i w) as P;
      destruct (Alerts.getitem_at v i w) as [[?|?] ?]; simpl in P; subst
  | |- context [match Alerts.per_thousand ?f ?v ?w with _ => _ end] =>
      let P := fresh "P" in
      pose proof (per_thousand_pure v w) as P;
      destruct (Alerts.per_thousand f v w) as [[?|?] ?]; simpl in P; subst
  end; [|reflexivity].

Lemma earthquake_entry_pure e w :
  snd (Alerts.earthquake_entry platform feeds e w) = w.
Proof.
  unfold Alerts.earthquake_entry. do 11 step_pure.
  match goal with
  | |- context [Alerts.fromtimestamp feeds ?q] =>
      now destruct (Alerts.fromtimestamp feeds q)
  end.
Qed.

Lemma weather_entry_pure a w : snd (Alerts.weather_entry a w) = w.
Proof. unfold Alerts.weather_entry. do 6 step_pure. reflexivity. Qed.

End AlertsFacts.

(** The alerts are the features of the two feeds, one entry for each
    and in their order: an earthquake with its magnitude as the feed
    gives it, its position turned from the feed's longitude-latitude
    order into latitude and longitude, and its time taken from
    milliseconds to seconds and rendered as a local date; a weather alert
    with its event, severity and area.  The earthquake feed is asked
    first, for the events of the last day, then the weather feed. *)
Theorem alerts_follow_the_feeds platform feeds w uitems nitems es ws quakes alerts :
  has_yesterday platform (Alerts.clock w) ->
  Alerts.respond feeds (length (Alerts.sent w))
    (usgs_request platform (Alerts.clock w)) = Some (Alerts.JObj uitems) ->
  Alerts.assoc "features" uitems = Some (Alerts.JArr es) ->
  Alerts.respond feeds (S (length (Alerts.sent w))) noaa_request
  = Some (Alerts.JObj nitems) ->
  Alerts.assoc "features" nitems = Some (Alerts.JArr ws) ->
  Forall2 (reports_quake platform feeds) es quakes ->
  Forall2 reports_alert ws alerts ->
  Alerts.get_realtime_alerts platform feeds w
  = (Alerts.Ok (Alerts.mkResponse quakes alerts),
     Alerts.mkNet (S (Alerts.clock w))
       (Alerts.sent w ++ [usgs_request platform (Alerts.clock w); noaa_request])).
Proof.
  intros Hy Hu Hue Hn Hne Hq Ha. unfold Alerts.get_realtime_alerts.
  rewrite alerts_bind_eq, (fetch_earthquakes_eq platform feeds w Hy), Hu, Hue.
  rewrite alerts_bind_eq, fetch_weather_alerts_eq.
  cbn [Alerts.clock Alerts.sent]. rewrite length_app, Nat.add_comm. cbn [length Nat.add].
  rewrite Hn, Hne, <- app_assoc. cbn [app].
  rewrite alerts_bind_eq. cbn [Alerts.iterate Alerts.ret].
  rewrite alerts_bind_eq.
  rewrite (each_reports _ (reports_quake platform feeds) es quakes);
    [|intros x y; apply earthquake_entry_reports|assumption].
  rewrite alerts_bind_eq. cbn [Alerts.iterate Alerts.ret].
  rewrite alerts_bind_eq.
  rewrite (each_reports _ reports_alert ws alerts);
    [|intros x y; apply weather_entry_reports|assumption].
  reflexivity.
Qed.

(** On the test feeds: one earthquake and one flood warning. *)
Lemma alerts_follow_the_feeds_witness :
  Alerts.get_realtime_alerts Demo.platform
    (Drill.feeds (Some (Drill.collection [Drill.quake]))
                 (Some (Drill.collection [Drill.warning])))
    Drill.net
  = (Alerts.Ok
       (Alerts.mkResponse
          [Alerts.mkEarthquake (Alerts.JFloat 4.5)
             (Alerts.mkCoordinates (Alerts.JFloat 38.25) (Alerts.JFloat 142.5))
             "739924"]
          [Alerts.mkWeatherAlert (Alerts.JStr "Flood Warning")
             (Alerts.JStr "Severe") (Alerts.JStr "Bucks, PA")]),
     Alerts.mkNet (S (Alerts.clock Drill.net))
       (Alerts.sent Drill.net
        ++ [usgs_request Demo.platform (Alerts.clock Drill.net); noaa_request])).
Proof.
  refine (alerts_follow_the_feeds Demo.platform _ Drill.net _ _
            [Drill.quake] [Drill.warning] _ _ _ _ _ _ _ _ _).
  - unfold has_yesterday, MAXORDINAL. simpl. lia.
  - reflexivity.
  - reflexivity.
  - reflexivity.
  - reflexivity.
  - constructor; [|constructor].
    exists (Alerts.JFloat 4.5), (Alerts.JFloat 142.5), (Alerts.JFloat 38.25),
      1793793600000%Z.
    eexists. exists Demo.today. split; [|split; [reflexivity|split; reflexivity]].
    do 4 eexists. repeat split; reflexivity.
  - constructor; [|constructor].
    do 5 eexists. repeat split; reflexivity.
Defined.

(** A feed that answers with an object that has no [features], an
    error report for one, counts as a feed with nothing to report: the
    endpoint answers with no earthquake and no weather alert, and
    raises nothing. *)
Theorem feeds_without_features platform feeds w uitems nitems :
  has_yesterday platform (Alerts.clock w) ->
  Alerts.respond feeds (length (Alerts.sent w))
    (usgs_request platform (Alerts.clock w)) = Some (Alerts.JObj uitems) ->
  Alerts.assoc "features" uitems = None ->
  Alerts.respond feeds (S (length (Alerts.sent w))) noaa_request
  = Some (Alerts.JObj nitems) ->
  Alerts.assoc "features" nitems = None ->
  fst (Alerts.get_realtime_alerts platform feeds w)
  = Alerts.Ok (Alerts.mkResponse [] []).
Proof.
  intros Hy Hu Hue Hn Hne. unfold Alerts.get_realtime_alerts.
  rewrite alerts_bind_eq, (fetch_earthquakes_eq platform feeds w Hy), Hu, Hue.
  rewrite alerts_bind_eq, fetch_weather_alerts_eq.
  cbn [Alerts.clock Alerts.sent]. rewrite length_app, Nat.add_comm. cbn [length Nat.add].
  rewrite Hn, Hne. reflexivity.
Qed.

(** On the test feeds: both answer with a refusal. *)
Lemma feeds_without_features_witness :
  fst (Alerts.get_realtime_alerts Demo.platform
         (Drill.feeds (Some Drill.refusal) (Some Drill.refusal)) Drill.net)
  = Alerts.Ok (Alerts.mkResponse [] []).
Proof.
  refine (feeds_without_features Demo.platform _ Drill.net _ _ _ _ _ _ _).
  - unfold has_yesterday, MAXORDINAL. simpl. lia.
  - reflexivity.
  - reflexivity.
  - reflexivity.
  - reflexivity.
Defined.

(** One feature without [properties] costs the whole answer: the
    endpoint raises [KeyError] for that key, after both feeds were
    asked, and reports none of the earthquakes before it. *)
Theorem one_bad_feature_fails_all platform feeds w uitems ndata
  good entries bad rest :
  has_yesterday platform (Alerts.clock w) ->
  Alerts.respond feeds (length (Alerts.sent w))
    (usgs_request platform (Alerts.clock w)) = Some (Alerts.JObj uitems) ->
  Alerts.assoc "features" uitems
  = Some (Alerts.JArr (good ++ Alerts.JObj bad :: rest)) ->
  Alerts.respond feeds (S (length (Alerts.sent w))) noaa_request
  = Some (Alerts.JObj ndata) ->
  Forall2 (reports_quake platform feeds) good entries ->
  Alerts.assoc "properties" bad = None ->
  Alerts.get_realtime_alerts platform feeds w
  = (Alerts.Err (Alerts.KeyError (Alerts.KStr "properties")),
     Alerts.mkNet (S (Alerts.clock w))
       (Alerts.sent w ++ [usgs_request platform (Alerts.clock w); noaa_request])).
Proof.
  intros Hy Hu Hue Hn Hq Hbad. unfold Alerts.get_realtime_alerts.
  rewrite alerts_bind_eq, (fetch_earthquakes_eq platform feeds w Hy), Hu, Hue.
  rewrite alerts_bind_eq, fetch_weather_alerts_eq.
  cbn [Alerts.clock Alerts.sent]. rewrite length_app, Nat.add_comm. cbn [length Nat.add].
  rewrite Hn, <- app_assoc. cbn [app].
  rewrite alerts_bind_eq. cbn [Alerts.iterate Alerts.ret].
  rewrite alerts_bind_eq.
  rewrite (each_fails_at _ (reports_quake platform feeds) good entries
             (Alerts.JObj bad) rest (Alerts.KeyError (Alerts.KStr "properties")));
    [reflexivity|intros x y; apply earthquake_entry_reports|assumption|].
  unfold Alerts.earthquake_entry. rewrite alerts_bind_eq.
  cbn [Alerts.getitem]. now rewrite Hbad.
Qed.

(** On the test feeds: a good earthquake followed by a broken one. *)
Lemma one_bad_feature_fails_all_witness :
  Alerts.get_realtime_alerts Demo.platform
    (Drill.feeds (Some (Drill.collection [Drill.quake; Drill.broken_quake]))
                 (Some (Drill.collection [Drill.warning])))
    Drill.net
  = (Alerts.Err (Alerts.KeyError (Alerts.KStr "properties")),
     Alerts.mkNet (S (Alerts.clock Drill.net))
       (Alerts.sent Drill.net
        ++ [usgs_request Demo.platform (Alerts.clock Drill.net); noaa_request])).
Proof.
  refine (one_bad_feature_fails_all Demo.platform _ Drill.net _ _
            [Drill.quake] _ [("type", Alerts.JStr "Feature")]%string [] _ _ _ _ _ _).
  - unfold has_yesterday, MAXORDINAL. simpl. lia.
  - reflexivity.
  - reflexivity.
  - reflexivity.
  - constructor; [|constructor].
    exists (Alerts.JFloat 4.5), (Alerts.JFloat 142.5), (Alerts.JFloat 38.25),
      1793793600000%Z.
    eexists. exists Demo.today. split; [|split; [reflexivity|split; reflexivity]].
    do 4 eexists. repeat split; reflexivity.
  - reflexivity.
Defined.

Lemma alerts_tail_pure platform feeds quakes_feed weather_feed w :
  snd (Alerts.bind (Alerts.iterate quakes_feed) (fun es =>
       Alerts.bind (Alerts.each (Alerts.earthquake_entry platform feeds) es)
         (fun quakes =>
       Alerts.bind (Alerts.iterate weather_feed) (fun ws =>
       Alerts.bind (Alerts.each Alerts.weather_entry ws) (fun alerts =>
       Alerts.ret (Alerts.mkResponse quakes alerts))))) w) = w.
Proof.
  rewrite alerts_bind_eq.
  pose proof (iterate_pure quakes_feed w) as P1.
  destruct (Alerts.iterate quakes_feed w) as [[es|e] w1]; simpl in P1; subst w1;
    [|reflexivity].
  rewrite alerts_bind_eq.
  pose proof (each_pure (Alerts.earthquake_entry platform feeds) es
                (earthquake_entry_pure platform feeds) w) as P2.
  destruct (Alerts.each (Alerts.earthquake_entry platform feeds) es w)
    as [[quakes|e] w1]; simpl in P2; subst w1; [|reflexivity].
  rewrite alerts_bind_eq.
  pose proof (iterate_pure weather_feed w) as P3.
  destruct (Alerts.iterate weather_feed w) as [[ws|e] w1]; simpl in P3; subst w1;
    [|reflexivity].
  rewrite alerts_bind_eq.
  pose proof (each_pure Alerts.weather_entry ws weather_entry_pure w) as P4.
  destruct (Alerts.each Alerts.weather_entry ws w)
    as [[alerts|e] w1]; simpl in P4; subst w1; reflexivity.
Qed.

(** The endpoint reads the clock once and asks the earthquake feed
    first.  The weather feed is asked exactly when the earthquake feed
    has answered with an object; when the earthquake request fails or
    its answer is anything else, the endpoint fails with that, the
    request error or [AttributeError], and the weather feed is never
    contacted.  No third request is ever sent. *)
Theorem alerts_contact_order platform feeds w :
  has_yesterday platform (Alerts.clock w) ->
  let r := Alerts.get_realtime_alerts platform feeds w in
  let usgs := usgs_request platform (Alerts.clock w) in
  Alerts.clock (snd r) = S (Alerts.clock w)
  /\ ((exists items,
         Alerts.respond feeds (length (Alerts.sent w)) usgs
         = Some (Alerts.JObj items)) ->
      Alerts.sent (snd r) = Alerts.sent w ++ [usgs; noaa_request])
  /\ ((forall items,
         Alerts.respond feeds (length (Alerts.sent w)) usgs
         <> Some (Alerts.JObj items)) ->
      Alerts.sent (snd r) = Alerts.sent w ++ [usgs]
      /\ (fst r = Alerts.Err Alerts.ClientError
          \/ fst r = Alerts.Err Alerts.AttributeError)).
Proof.
  intros Hy r usgs.
  assert (R : r = Alerts.get_realtime_alerts platform feeds w) by reflexivity.
  clearbody r. unfold Alerts.get_realtime_alerts in R.
  rewrite alerts_bind_eq, (fetch_earthquakes_eq platform feeds w Hy) in R.
  fold usgs in R.
  destruct (Alerts.respond feeds (length (Alerts.sent w)) usgs) as [data|] eqn:Eu.
  2: { subst r. cbn [fst snd Alerts.clock Alerts.sent]. split; [reflexivity|].
       split; [intros [? H]; discriminate|].
       intros _. split; [reflexivity|now left]. }
  destruct data as [| | | | | |items];
    try (subst r; cbn [fst snd Alerts.clock Alerts.sent]; split; [reflexivity|];
         split; [intros [? H]; discriminate|];
         intros _; split; [reflexivity|now right]).
  assert (W : snd r = Alerts.mkNet (S (Alerts.clock w))
                        (Alerts.sent w ++ [usgs; noaa_request])).
  { subst r. cbv beta iota. rewrite alerts_bind_eq, fetch_weather_alerts_eq.
    cbn [Alerts.clock Alerts.sent]. rewrite <- app_assoc. cbn [app].
    destruct (Alerts.respond feeds (length (Alerts.sent w ++ [usgs])) noaa_request)
      as [[| | | | | |nitems]|]; try reflexivity.
    apply alerts_tail_pure. }
  rewrite W. cbn [Alerts.clock Alerts.sent].
  split; [reflexivity|]. split; [reflexivity|].
  intros H. exfalso. now apply (H items).
Qed.

(** On the test feeds: the earthquake feed is down. *)
Lemma alerts_contact_order_witness :
  let r := Alerts.get_realtime_alerts Demo.platform
             (Drill.feeds None (Some (Drill.collection [Drill.warning])))
             Drill.net in
  let usgs := usgs_request Demo.platform (Alerts.clock Drill.net) in
  Alerts.clock (snd r) = S (Alerts.clock Drill.net)
  /\ ((exists items,
         Alerts.respond (Drill.feeds None (Some (Drill.collection [Drill.warning])))
           (length (Alerts.sent Drill.net)) usgs
         = Some (Alerts.JObj items)) ->
      Alerts.sent (snd r) = Alerts.sent Drill.net ++ [usgs; noaa_request])
  /\ ((forall items,
         Alerts.respond (Drill.feeds None (Some (Drill.collection [Drill.warning])))
           (length (Alerts.sent Drill.net)) usgs
         <> Some (Alerts.JObj items)) ->
      Alerts.sent (snd r) = Alerts.sent Drill.net ++ [usgs]
      /\ (fst r = Alerts.Err Alerts.ClientError
          \/ fst r = Alerts.Err Alerts.AttributeError)).
Proof.
  apply (alerts_contact_order Demo.platform
           (Drill.feeds None (Some (Drill.collection [Drill.warning]))) Drill.net).
  unfold has_yesterday, MAXORDINAL. simpl. lia.
Defined.

(** Asking for the earthquakes of more days than the calendar has
    before today fails with [OverflowError] once the clock is read, and
    no request is sent. *)
Theorem fetch_earthquakes_too_far_back platform feeds days w :
  (toordinal (now platform (Alerts.clock w)) - days < 1)%Z ->
  Alerts.fetch_earthquakes platform feeds days w
  = (Alerts.Err Alerts.OverflowError,
     Alerts.mkNet (S (Alerts.clock w)) (Alerts.sent w)).
Proof.
  intros H. unfold Alerts.fetch_earthquakes.
  rewrite alerts_bind_eq. unfold Alerts.read_clock at 1.
  rewrite alerts_bind_eq. unfold Alerts.days_before at 1.
  destruct (Z.abs days <=? 999999999)%Z; [|reflexivity].
  cbv zeta.
  replace (1 <=? toordinal (now platform (Alerts.clock w)) - days)%Z with false
    by (symmetry; apply Z.leb_gt; assumption).
  reflexivity.
Qed.

(** On the test deployment: a million days back from 2026-11-04. *)
Lemma fetch_earthquakes_too_far_back_witness :
  Alerts.fetch_earthquakes Demo.platform
    (Drill.feeds (Some (Drill.collection [Drill.quake])) None) 1000000 Drill.net
  = (Alerts.Err Alerts.OverflowError,
     Alerts.mkNet (S (Alerts.clock Drill.net)) (Alerts.sent Drill.net)).
Proof.
  apply (fetch_earthquakes_too_far_back Demo.platform
           (Drill.feeds (Some (Drill.collection [Drill.quake])) None)
           1000000 Drill.net).
  simpl. lia.
Defined.

(** ** The alert list of the frontend *)

(** After a successful fetch the "Recent Alerts" list shows the first
    five earthquakes, and weather alerts only in the places that fewer
    than five earthquakes leave free: with five earthquakes or more, no
    weather alert is listed. *)
Theorem recent_alerts_put_earthquakes_first old data :
  let alerts := Frontend.fetchAlerts old (Some data) in
  Frontend.recent alerts
  = firstn 5 (map Frontend.EarthquakeAlert (Alerts.earthquakes data))
    ++ firstn (5 - length (Alerts.earthquakes data))
         (map Frontend.WeatherNotice (Alerts.weather_alerts data))
  /\ ((5 <= length (Alerts.earthquakes data))%nat ->
      forall a, ~ In (Frontend.WeatherNotice a) (Frontend.recent alerts)).
Proof.
  intros alerts. subst alerts. unfold Frontend.recent, Frontend.fetchAlerts, slice.
  change (skipn 0 ?l) with l. rewrite Nat.sub_0_r.
  assert (E : firstn 5 (map Frontend.EarthquakeAlert (Alerts.earthquakes data)
                        ++ map Frontend.WeatherNotice (Alerts.weather_alerts data))
              = firstn 5 (map Frontend.EarthquakeAlert (Alerts.earthquakes data))
                ++ firstn (5 - length (Alerts.earthquakes data))
                     (map Frontend.WeatherNotice (Alerts.weather_alerts data))).
  { now rewrite firstn_app, length_map. }
  split; [exact E|].
  intros H a Hin. rewrite E in Hin.
  replace (5 - length (Alerts.earthquakes data))%nat with O in Hin by lia.
  rewrite firstn_0, app_nil_r in Hin.
  apply in_firstn, in_map_iff in Hin. destruct Hin as (e & He & _). discriminate.
Qed.

(** ** The models of the test deployment answer probabilities *)



